(** * ComStock processor: download, filter and cache pipeline

    A shallow embedding of [comstock_processor.py].  The Python code is
    effectful: it looks at the local file system, talks to a remote object
    store, prints notices and fans work out over a thread pool.  We embed it
    as programs over a small set of atomic operations ([Op]), give those
    operations a meaning on an explicit [World] (files, directories and a
    trace of observable events), and run programs either sequentially
    ([interp]) or interleaved under an arbitrary schedule ([executor_map]). *)

From Stdlib Require Import Ascii String.
From stdpp Require Import base gmap sets list strings pretty.

Open Scope string_scope.
Open Scope Z_scope.
Open Scope list_scope.

(** ** Paths

    A [pathlib.Path] is kept as the list of its components below the root.
    [p / name] appends one component: the names the program builds are file
    names, taken here as a single component each. *)

Abbreviation Path := (list string).

Definition path_div (p : Path) (name : string) : Path := (p ++ [name])%list.
Infix "</>" := path_div (at level 50, left associativity).

Definition parent (p : Path) : Path := removelast p.

(** Rendering of a path inside an f-string. *)
Definition path_str (p : Path) : string :=
  foldr (fun c acc => "/" +:+ c +:+ acc) "" p.

(** ** Values, exceptions, responses *)

Inductive Cell :=
| CInt (z : Z)
| CStr (s : string).

#[global] Instance Cell_eq_dec : EqDecision Cell.
Proof. solve_decision. Defined.

(** Python's [str(...)] on a cell (also what an f-string placeholder does). *)
Definition str (c : Cell) : string :=
  match c with
  | CInt z => pretty z
  | CStr s => s
  end.

Inductive Exn :=
| FileNotFoundError
| FileExistsError
| NotADirectoryError
| IsADirectoryError
| KeyError (key : string)
| ValueError
| ArrowInvalid
| ParserError.

#[global] Instance Exn_eq_dec : EqDecision Exn.
Proof. solve_decision. Defined.

Inductive Result (A : Type) :=
| Ok (a : A)
| Raise (e : Exn).
Arguments Ok {A} a.
Arguments Raise {A} e.

Record Response := mkResponse {
  status_code : Z;
  content : string;
}.

(** The remote object store: what a GET on a URL answers.  The transport
    always comes back with a status; time-outs and connection errors are
    left out. *)
Abbreviation Remote := (string -> Response).

(** ** Observable events and the world *)

Inductive Event :=
| EvPrint (msg : string)        (* print / tqdm.write *)
| EvGet (url : string)          (* requests.get *)
| EvMkdir (p : Path)
| EvOpen (p : Path)             (* open(p, "wb"): create or truncate *)
| EvWrite (p : Path)            (* file.write *)
| EvRead (p : Path)             (* whole-file read *)
| EvSubmit (i : nat).           (* executor.submit of the i-th task *)

#[global] Instance Event_eq_dec : EqDecision Event.
Proof. solve_decision. Defined.

(** Who did it: [None] is the calling thread, [Some i] the pool task [i]. *)
Abbreviation Tid := (option nat).

Record World := mkWorld {
  files : gmap Path string;
  dirs : gset Path;
  trace : list (Tid * Event);   (* most recent event first *)
}.

Definition log (t : Tid) (ev : Event) (w : World) : World :=
  mkWorld (files w) (dirs w) ((t, ev) :: trace w).

Definition set_file (p : Path) (data : string) (w : World) : World :=
  mkWorld (<[p := data]> (files w)) (dirs w) (trace w).

Definition add_dir (p : Path) (w : World) : World :=
  mkWorld (files w) ({[p]} ∪ dirs w) (trace w).

Definition is_dir (w : World) (p : Path) : bool :=
  bool_decide (p = []) || bool_decide (p ∈ dirs w).

Definition is_file (w : World) (p : Path) : bool :=
  bool_decide (is_Some (files w !! p)).

Definition exists_ (w : World) (p : Path) : bool :=
  is_dir w p || is_file w p.

(** ** Atomic operations and programs *)

Inductive Op : Type -> Type :=
| OExists (p : Path) : Op bool
| OMkdir (p : Path) : Op unit
| OGet (url : string) : Op Response
| OOpen (p : Path) : Op unit
| OWrite (p : Path) (data : string) : Op unit
| ORead (p : Path) : Op string
| OPrint (msg : string) : Op unit.

Inductive Prog (A : Type) : Type :=
| Ret (a : A)
| Throw (e : Exn)
| Vis {X : Type} (op : Op X) (k : X -> Prog A).
Arguments Ret {A} a.
Arguments Throw {A} e.
Arguments Vis {A X} op k.

Fixpoint bind {A B : Type} (m : Prog A) (f : A -> Prog B) : Prog B :=
  match m with
  | Ret a => f a
  | Throw e => Throw e
  | Vis op k => Vis op (fun x => bind (k x) f)
  end.

Definition trigger {X : Type} (op : Op X) : Prog X := Vis op Ret.

Notation "x <~ m ; k" := (bind m (fun x => k))
  (at level 20, m at level 100, k at level 200, only parsing).
Notation "'exec' m ; k" := (bind m (fun _ => k))
  (at level 20, m at level 100, k at level 200, only parsing).

(** What one atomic operation does to the world, on behalf of thread [t]. *)
Definition perform (net : Remote) (t : Tid) {X : Type} (op : Op X)
    (w : World) : Result X * World :=
  match op in Op X return Result X * World with
  | OExists p => (Ok (exists_ w p), w)
  | OMkdir p =>
      if exists_ w p then (Raise FileExistsError, w)
      else if is_dir w (parent p) then (Ok tt, log t (EvMkdir p) (add_dir p w))
      else if is_file w (parent p) then (Raise NotADirectoryError, w)
      else (Raise FileNotFoundError, w)
  | OGet url => (Ok (net url), log t (EvGet url) w)
  | OOpen p =>
      if is_dir w p then (Raise IsADirectoryError, w)
      else if is_dir w (parent p) then (Ok tt, log t (EvOpen p) (set_file p "" w))
      else if is_file w (parent p) then (Raise NotADirectoryError, w)
      else (Raise FileNotFoundError, w)
  | OWrite p data => (Ok tt, log t (EvWrite p) (set_file p data w))
  | ORead p =>
      match files w !! p with
      | Some data => (Ok data, log t (EvRead p) w)
      | None =>
          if is_dir w p then (Raise IsADirectoryError, w)
          else (Raise FileNotFoundError, w)
      end
  | OPrint msg => (Ok tt, log t (EvPrint msg) w)
  end.

(** One atomic step of a program. *)
Definition step {A : Type} (net : Remote) (t : Tid) (p : Prog A) (w : World)
    : Prog A * World :=
  match p with
  | Vis op k =>
      match perform net t op w with
      | (Ok x, w') => (k x, w')
      | (Raise e, w') => (Throw e, w')
      end
  | _ => (p, w)
  end.

Definition finished {A : Type} (p : Prog A) : bool :=
  match p with
  | Vis _ _ => false
  | _ => true
  end.

(** Sequential execution to completion. *)
Fixpoint interp {A : Type} (net : Remote) (t : Tid) (p : Prog A) (w : World)
    : Result A * World :=
  match p with
  | Ret a => (Ok a, w)
  | Throw e => (Raise e, w)
  | Vis op k =>
      match perform net t op w with
      | (Ok x, w') => interp net t (k x) w'
      | (Raise e, w') => (Raise e, w')
      end
  end.

(** ** Data frames: the part of pandas the program relies on

    A frame has an index (with an optional name), ordered column labels and
    rows; each row carries its index label and its cells in column order. *)

Record DataFrame := mkDF {
  df_index_name : option string;
  df_columns : list string;
  df_rows : list (Cell * list Cell);
}.

#[global] Instance DataFrame_eq_dec : EqDecision DataFrame.
Proof. solve_decision. Defined.

(** A row seen as a Series: column label to value. *)
Abbreviation Row := (gmap string Cell).

Definition series (cols : list string) (cells : list Cell) : gmap string Cell :=
  list_to_map (zip cols cells).

Definition iterrows (df : DataFrame) : list (Cell * gmap string Cell) :=
  map (fun r => (r.1, series (df_columns df) r.2)) (df_rows df).

(** [row[key]] *)
Definition getitem (row : gmap string Cell) (key : string) : Prog Cell :=
  match row !! key with
  | Some c => Ret c
  | None => Throw (KeyError key)
  end.

(** Filters as handed to [pd.read_parquet]: a list of (column, op, value)
    triples, read as a conjunction.  The index is stored in the file as one
    more field, under its name. *)
Inductive CmpOp := OpEq.
Abbreviation Filter := (string * CmpOp * string)%type.

Definition field (df : DataFrame) (r : Cell * list Cell) (c : string)
    : option Cell :=
  match series (df_columns df) r.2 !! c with
  | Some v => Some v
  | None => if bool_decide (df_index_name df = Some c) then Some r.1 else None
  end.

Definition has_field (df : DataFrame) (c : string) : bool :=
  bool_decide (c ∈ df_columns df) || bool_decide (df_index_name df = Some c).

Definition holds (df : DataFrame) (r : Cell * list Cell) (f : Filter) : bool :=
  match f with
  | (c, OpEq, v) => bool_decide (field df r c = Some (CStr v))
  end.

Definition apply_filters (filters : option (list Filter)) (df : DataFrame)
    : Result DataFrame :=
  match filters with
  | None => Ok df
  | Some fs =>
      if forallb (fun f => has_field df f.1.1) fs then
        Ok (mkDF (df_index_name df) (df_columns df)
              (List.filter (fun r => forallb (holds df r) fs) (df_rows df)))
      else Raise ArrowInvalid
  end.

(** [df.reset_index(drop=False)]: the index becomes the first column and a
    fresh positional index takes its place. *)
Definition reset_index (df : DataFrame) : Result DataFrame :=
  let name :=
    match df_index_name df with
    | Some n => n
    | None => if bool_decide ("index" ∈ df_columns df) then "level_0" else "index"
    end in
  if bool_decide (name ∈ df_columns df) then Raise ValueError
  else Ok (mkDF None (name :: df_columns df)
             (imap (fun i r => (CInt (Z.of_nat i), r.1 :: r.2)) (df_rows df))).

Definition lift {A : Type} (r : Result A) : Prog A :=
  match r with
  | Ok a => Ret a
  | Raise e => Throw e
  end.

(** The file formats themselves are pandas' and pyarrow's business: a codec
    is what decodes a columnar file, and writes and reads back a CSV file
    without its index ([to_csv(index=False)], [read_csv]). *)
Record Codec := mkCodec {
  parquet_decode : string -> option DataFrame;
  csv_encode : DataFrame -> string;
  csv_decode : string -> option DataFrame;
}.

Module pd.

Definition read_parquet (cd : Codec) (p : Path) (filters : option (list Filter))
    : Prog DataFrame :=
  data <~ trigger (ORead p);
  match parquet_decode cd data with
  | Some df => lift (apply_filters filters df)
  | None => Throw ArrowInvalid
  end.

Definition read_csv (cd : Codec) (p : Path) : Prog DataFrame :=
  data <~ trigger (ORead p);
  match csv_decode cd data with
  | Some df => Ret df
  | None => Throw ParserError
  end.

Definition to_csv (cd : Codec) (df : DataFrame) (p : Path) : Prog unit :=
  exec trigger (OOpen p);
  trigger (OWrite p (csv_encode cd df)).

End pd.

(** ** The processor *)

Record ComStockProcessor := mkProcessor {
  state : string;
  county_name : string;
  building_type : string;
  upgrade : string;
  base_dir : Path;
  base_url : string;
  metadata_url : string;
  time_series_url : string;
}.

Definition BASE_URL : string :=
  "https://oedi-data-lake.s3.amazonaws.com/nrel-pds-building-stock/end-use-load-profiles-for-us-building-stock/2024/comstock_amy2018_release_1/".

(** [ComStockProcessor.__init__] *)
Definition __init__ (state county_name building_type upgrade : string)
    (base_dir : Path) : Prog ComStockProcessor :=
  b <~ trigger (OExists base_dir);
  exec (if negb b then trigger (OMkdir base_dir) else Ret tt);
  Ret (mkProcessor state county_name building_type upgrade base_dir
         BASE_URL (BASE_URL +:+ "metadata")
         (BASE_URL +:+ "timeseries_individual_buildings")).

Definition download_file (url : string) (save_path : Path) : Prog unit :=
  response <~ trigger (OGet url);
  if status_code response =? 200 then
    exec trigger (OOpen save_path);
    trigger (OWrite save_path (content response))
  else
    trigger (OPrint ("Failed to download file: " +:+ url)).

Definition metadata_parquet (save_dir : Path) : Path :=
  save_dir </> "comstock_metadata.parquet".

Definition output_csv (self : ComStockProcessor) (save_dir : Path) : Path :=
  save_dir </> (state self +:+ "-" +:+ county_name self +:+ "-"
                +:+ building_type self +:+ "-" +:+ upgrade self
                +:+ "-selected_metadata.csv").

Definition COUNTY_WARNING : string :=
  "County is specified, but State is not. Ignoring County...".

(** The "# filter" block of [process_metadata]: the list grows by appends,
    and the ignored county is announced on the way. *)
Definition build_filters (self : ComStockProcessor) : Prog (list Filter) :=
  let filters : list Filter := [] in
  let filters :=
    if negb (String.eqb (state self) "All")
    then (filters ++ [("in.state", OpEq, state self)])%list else filters in
  filters <~
    (if negb (String.eqb (county_name self) "All") then
       if String.eqb (state self) "All" then
         exec trigger (OPrint COUNTY_WARNING); Ret filters
       else
         Ret (filters ++ [("in.county_name", OpEq,
                           state self +:+ ", " +:+ county_name self)])%list
     else Ret filters);
  let filters :=
    if negb (String.eqb (building_type self) "All")
    then (filters ++ [("in.comstock_building_type", OpEq, building_type self)])%list
    else filters in
  Ret filters.

Definition process_metadata (cd : Codec) (self : ComStockProcessor)
    (save_dir : Path) : Prog DataFrame :=
  b <~ trigger (OExists (metadata_parquet save_dir));
  exec (if b then
          trigger (OPrint "Metadata parquet already exists. Skipping download.")
        else
          let download := metadata_url self +:+ "/baseline.parquet" in
          exec trigger (OPrint ("Downloading metadata file: " +:+ download));
          download_file download (metadata_parquet save_dir));
  let out := output_csv self save_dir in
  b <~ trigger (OExists out);
  if b then
    exec trigger (OPrint ("Metadata csv already exists. Skipping creation. Delete "
                          +:+ path_str out +:+ " if you want to save again."));
    meta_df <~ pd.read_csv cd out;
    Ret meta_df
  else
    filters <~ build_filters self;
    meta_df <~ pd.read_parquet cd (metadata_parquet save_dir)
                 (if (length filters =? 0)%nat then None else Some filters);
    meta_df <~ lift (reset_index meta_df);
    exec pd.to_csv cd meta_df out;
    Ret meta_df.

Definition save_path_of (self : ComStockProcessor) (save_dir : Path)
    (building_id : string) : Path :=
  save_dir </> ("bldg_id-" +:+ building_id +:+ "-upgrade-" +:+ upgrade self
                +:+ ".parquet").

Definition time_series_file (self : ComStockProcessor) (st building_id : string)
    : string :=
  time_series_url self +:+ "/by_state/upgrade=" +:+ upgrade self +:+ "/state="
  +:+ st +:+ "/" +:+ building_id +:+ "-" +:+ upgrade self +:+ ".parquet".

(** The closure [download_task] of [process_building_time_series]. *)
Definition download_task (self : ComStockProcessor) (save_dir : Path)
    (row : gmap string Cell) : Prog (Path * string) :=
  c <~ getitem row "bldg_id";
  let building_id := str c in
  let save_path := save_path_of self save_dir building_id in
  b <~ trigger (OExists save_path);
  if b then Ret (save_path, building_id)
  else
    st <~ getitem row "in.state";
    let building_time_series_file := time_series_file self (str st) building_id in
    exec download_file building_time_series_file save_path;
    Ret (save_path, building_id).

(** ** The thread pool

    [ThreadPoolExecutor.map] submits one task per item at once and hands the
    results back in submission order.  Tasks advance one atomic operation at
    a time; which task moves next is decided by a schedule, a list of task
    numbers.  An entry is skipped when its task is over, or has not been
    picked up yet and either an earlier task still waits in the queue or all
    workers are busy.  When the schedule is used up the pool is joined: the
    remaining tasks are run to their end, in order.  Every interleaving the
    pool can produce is the run of some schedule.  The executor creates its
    worker threads inside [submit] only: a call that submits nothing
    starts none. *)

Record Task (A : Type) := mkTask {
  started : bool;
  code : Prog A;
}.
Arguments mkTask {A} started code.
Arguments started {A} t.
Arguments code {A} t.

Section Pool.
Context {A : Type}.
Variable net : Remote.
Variable max_workers : nat.

Definition in_flight (t : Task A) : bool :=
  started t && negb (finished (code t)).

Definition picked (t : Task A) : bool :=
  started t || finished (code t).

Definition may_run (i : nat) (ts : list (Task A)) (t : Task A) : bool :=
  started t
  || (forallb picked (take i ts)
      && (length (List.filter in_flight ts) <? max_workers)%nat).

Definition pool_step (i : nat) (st : list (Task A) * World)
    : list (Task A) * World :=
  match st.1 !! i with
  | None => st
  | Some t =>
      if finished (code t) then st
      else if may_run i st.1 t then
        let r := step net (Some i) (code t) st.2 in
        (<[i := mkTask true r.1]> st.1, r.2)
      else st
  end.

Definition run_schedule (sched : list nat) (st : list (Task A) * World)
    : list (Task A) * World :=
  foldl (fun st i => pool_step i st) st sched.

Fixpoint join (i : nat) (ts : list (Task A)) (w : World)
    : list (Result A) * World :=
  match ts with
  | [] => ([], w)
  | t :: ts' =>
      let r := interp net (Some i) (code t) w in
      let rs := join (S i) ts' r.2 in
      (r.1 :: rs.1, rs.2)
  end.

(** Iterating the results re-raises the first exception in submission
    order. *)
Fixpoint collect (rs : list (Result A)) : Result (list A) :=
  match rs with
  | [] => Ok []
  | Ok a :: rs' =>
      match collect rs' with
      | Ok l => Ok (a :: l)
      | Raise e => Raise e
      end
  | Raise e :: _ => Raise e
  end.

Definition submit_all (n : nat) (w : World) : World :=
  foldl (fun w i => log None (EvSubmit i) w) w (seq 0 n).

Definition executor_map {B : Type} (sched : list nat) (fn : B -> Prog A)
    (items : list B) (w : World) : Result (list A) * World :=
  let ts := map (fun x => mkTask false (fn x)) items in
  let w0 := submit_all (length items) w in
  let st := run_schedule sched (ts, w0) in
  let rs := join 0 st.1 st.2 in
  (collect rs.1, rs.2).

End Pool.

(** [[row for _, row in data_frame.iterrows()]] *)
Definition data_rows (data_frame : DataFrame) : list (gmap string Cell) :=
  map snd (iterrows data_frame).

Definition worker_notice (cpu_count : nat) : Event :=
  EvPrint ("Number of workers: " +:+ pretty (Nat.max 1 (cpu_count - 1))).

Definition process_building_time_series (net : Remote) (cpu_count : nat)
    (sched : list nat) (self : ComStockProcessor) (data_frame : DataFrame)
    (save_dir : Path) (w : World)
    : Result (list Path * list string) * World :=
  let num_workers := Nat.max 1 (cpu_count - 1) in
  let w1 := (interp net None
               (trigger (OPrint ("Number of workers: " +:+ pretty num_workers)))
               w).2 in
  let r := executor_map net num_workers sched (download_task self save_dir)
             (data_rows data_frame) w1 in
  match r.1 with
  | Raise e => (Raise e, r.2)
  | Ok results =>
      (* the unzip, with the explicit empty case of the source *)
      let pi :=
        match results with
        | [] => ([], [])
        | _ => (map fst results, map snd results)
        end in
      (Ok (pi.1, pi.2), r.2)
  end.

(** ** The driver

    [main] wires fixed parameters, creates the directories and calls the two
    operations in sequence.  It runs on the calling thread; the pool and
    [Path.mkdir(parents=True, exist_ok=True)], which reacts to the errors of
    the single-level mkdir, are functions of the world, so [main] is one
    too. *)

Definition andthen {A B : Type} (m : World -> Result A * World)
    (f : A -> World -> Result B * World) : World -> Result B * World :=
  fun w =>
    match m w with
    | (Ok a, w') => f a w'
    | (Raise e, w') => (Raise e, w')
    end.

Notation "x <== m ; k" := (andthen m (fun x => k))
  (at level 20, m at level 100, k at level 200, only parsing).

(** [Path.mkdir(parents=False, exist_ok=True)]: a missing parent is an error,
    any other failure is forgiven when the path is a directory. *)
Definition mkdir_exist_ok (net : Remote) (t : Tid) (p : Path) (w : World)
    : Result unit * World :=
  match perform net t (OMkdir p) w with
  | (Ok x, w') => (Ok x, w')
  | (Raise FileNotFoundError, w') => (Raise FileNotFoundError, w')
  | (Raise e, w') => if is_dir w' p then (Ok tt, w') else (Raise e, w')
  end.

(** [Path.mkdir(parents=True, exist_ok=True)], on the reversed path: try the
    single-level mkdir; on a missing parent create the parent the same way
    and try again; forgive any other failure when the path is a directory. *)
Fixpoint mkdir_parents_rev (net : Remote) (t : Tid) (rp : list string)
    (w : World) : Result unit * World :=
  match perform net t (OMkdir (rev rp)) w with
  | (Ok x, w') => (Ok x, w')
  | (Raise FileNotFoundError, w') =>
      match rp with
      | [] => (Raise FileNotFoundError, w')
      | _ :: rq =>
          match mkdir_parents_rev net t rq w' with
          | (Ok _, w'') => mkdir_exist_ok net t (rev rp) w''
          | (Raise e, w'') => (Raise e, w'')
          end
      end
  | (Raise e, w') => if is_dir w' (rev rp) then (Ok tt, w') else (Raise e, w')
  end.

Definition mkdir_parents (net : Remote) (t : Tid) (p : Path)
    : World -> Result unit * World :=
  mkdir_parents_rev net t (rev p).

(** The loop [for d in [...]: if not d.exists(): d.mkdir(parents=True,
    exist_ok=True)]. *)
Fixpoint ensure_dirs (net : Remote) (ds : list Path)
    : World -> Result unit * World :=
  match ds with
  | [] => fun w => (Ok tt, w)
  | d :: ds' =>
      b <== interp net None (trigger (OExists d));
      _ <== (if negb b then mkdir_parents net None d else fun w => (Ok tt, w));
      ensure_dirs net ds'
  end.

Definition main (cd : Codec) (net : Remote) (cpu_count : nat)
    (sched : list nat) (cwd : Path) : World -> Result unit * World :=
  let state := "CA" in
  let county_name := "All" in
  let building_type := "All" in
  let upgrade := "0" in
  let base_dir := cwd </> "datasets" </> "comstock" in
  let timeseries_save_dir := base_dir </> "timeseries" in
  _ <== ensure_dirs net [base_dir; timeseries_save_dir];
  processor <== interp net None
                  (__init__ state county_name building_type upgrade base_dir);
  meta_df <== interp net None (process_metadata cd processor base_dir);
  _ <== process_building_time_series net cpu_count sched processor meta_df
          timeseries_save_dir;
  fun w => (Ok tt, w).

(** ** Observing one call

    The events a call added to the trace, and two things a caller may ask of
    them. *)

Definition events_since (w w' : World) : list (Tid * Event) :=
  take (length (trace w') - length (trace w)) (trace w').

Definition is_get (e : Tid * Event) : bool :=
  match e.2 with
  | EvGet _ => true
  | _ => false
  end.

Definition is_write (e : Tid * Event) : bool :=
  match e.2 with
  | EvOpen _ | EvWrite _ | EvMkdir _ => true
  | _ => false
  end.

Definition network_free (evs : list (Tid * Event)) : bool :=
  forallb (fun e => negb (is_get e)) evs.

Definition write_free (evs : list (Tid * Event)) : bool :=
  forallb (fun e => negb (is_write e)) evs.

Definition printed (t : Tid) (msg : string) (evs : list (Tid * Event)) : bool :=
  bool_decide ((t, EvPrint msg) ∈ evs).

Definition with_county (county : string) (self : ComStockProcessor)
    : ComStockProcessor :=
  mkProcessor (state self) county (building_type self) (upgrade self)
    (base_dir self) (base_url self) (metadata_url self) (time_series_url self).

(** ** A small concrete codec and remote, to run the programs on examples

    Rows are separated by [;] and cells by [|].  A columnar file starts with
    the index name (empty when the index has none) and the column labels;
    a CSV file starts with the column labels.  A cell made of digits reads
    back as an integer. *)

Module Toy.

Fixpoint split_on (sep : ascii) (s : string) : list string :=
  match s with
  | EmptyString => [EmptyString]
  | String c s' =>
      if Ascii.eqb c sep then EmptyString :: split_on sep s'
      else match split_on sep s' with
           | h :: t => String c h :: t
           | [] => [String c EmptyString]
           end
  end.

Fixpoint join_with (sep : string) (l : list string) : string :=
  match l with
  | [] => ""
  | [x] => x
  | x :: l' => x +:+ sep +:+ join_with sep l'
  end.

Definition is_digit (c : ascii) : bool :=
  ((48 <=? nat_of_ascii c) && (nat_of_ascii c <=? 57))%nat.

Fixpoint all_digits (s : string) : bool :=
  match s with
  | EmptyString => true
  | String c s' => is_digit c && all_digits s'
  end.

Fixpoint digits_value (acc : Z) (s : string) : Z :=
  match s with
  | EmptyString => acc
  | String c s' => digits_value (10 * acc + (Z.of_nat (nat_of_ascii c) - 48)) s'
  end.

Definition parse_cell (s : string) : Cell :=
  match s with
  | EmptyString => CStr s
  | _ => if all_digits s then CInt (digits_value 0 s) else CStr s
  end.

Definition cells_of (line : string) : list Cell :=
  map parse_cell (split_on "|" line).

Definition parquet_decode (data : string) : option DataFrame :=
  match split_on ";" data with
  | name :: cols :: rows =>
      Some (mkDF (match name with EmptyString => None | _ => Some name end)
              (split_on "|" cols)
              (map (fun l => match cells_of l with
                             | i :: cs => (i, cs)
                             | [] => (CStr "", [])
                             end) rows))
  | _ => None
  end.

Definition csv_encode (df : DataFrame) : string :=
  join_with ";" (join_with "|" (df_columns df)
                 :: map (fun r => join_with "|" (map str r.2)) (df_rows df)).

Definition csv_decode (data : string) : option DataFrame :=
  match split_on ";" data with
  | cols :: rows =>
      Some (mkDF None (split_on "|" cols)
              (imap (fun i l => (CInt (Z.of_nat i), cells_of l)) rows))
  | [] => None
  end.

Definition codec : Codec := mkCodec parquet_decode csv_encode csv_decode.

(** Raw metadata of four buildings in three states. *)
Definition metadata : string :=
  "bldg_id;in.state|in.county_name|in.comstock_building_type;"
  +:+ "101|DE|DE, Kent|SmallOffice;"
  +:+ "102|DE|DE, Sussex|MediumOffice;"
  +:+ "103|NY|NY, Kings|SmallOffice;"
  +:+ "104|CA|CA, Kern|SmallOffice".

(** A store that serves the metadata and the series of building 101 only. *)
Definition remote : string -> Response :=
  fun url =>
    if String.eqb url (BASE_URL +:+ "metadata/baseline.parquet")
    then mkResponse 200 metadata
    else if String.eqb url
              (BASE_URL +:+ "timeseries_individual_buildings/by_state/upgrade=0/state=DE/101-0.parquet")
    then mkResponse 200 "series-101"
    else mkResponse 404 "".

(** A store that is gone. *)
Definition offline : string -> Response := fun _ => mkResponse 404 "".

Definition data_dir : Path := ["data"].

(** An empty disk with the destination directory in place. *)
Definition disk : World := mkWorld ∅ {[ data_dir ]} [].

Definition processor (st county bt : string) : ComStockProcessor :=
  mkProcessor st county bt "0" data_dir BASE_URL (BASE_URL +:+ "metadata")
    (BASE_URL +:+ "timeseries_individual_buildings").

(** A disk on which only a projection of an earlier run is left. *)
Definition projection_only : World :=
mkWorld {[ ["data"; "DE-All-SmallOffice-0-selected_metadata.csv"]
           := "bldg_id|in.state;101|DE" ]}
  {[ data_dir ]} [].

(** Two row sets for the time-series calls; the second has no state column. *)
Definition one_building : DataFrame :=
mkDF None ["bldg_id"; "in.state"] [(CInt 0, [CInt 101; CStr "DE"])].

Definition two_buildings : DataFrame :=
mkDF None ["bldg_id"; "in.state"]
  [(CInt 0, [CInt 101; CStr "DE"]); (CInt 1, [CInt 102; CStr "DE"])].

Definition ids_only : DataFrame :=
mkDF None ["bldg_id"] [(CInt 0, [CInt 101])].

(** A disk that already holds the series of building 101. *)
Definition disk_with_101 : World :=
mkWorld {[ ["data"; "bldg_id-101-upgrade-0.parquet"] := "series-101" ]}
  {[ data_dir ]} [].

Definition medium_offices : DataFrame :=
mkDF None ["bldg_id"; "in.state"; "in.county_name"; "in.comstock_building_type"]
  [(CInt 0, [CInt 102; CStr "DE"; CStr "DE, Sussex"; CStr "MediumOffice"])].

Definition de_small_offices : DataFrame :=
mkDF None ["bldg_id"; "in.state"; "in.county_name"; "in.comstock_building_type"]
  [(CInt 0, [CInt 101; CStr "DE"; CStr "DE, Kent"; CStr "SmallOffice"])].

End Toy.


(** * Reasoning tools *)

Arguments exists_ : simpl never.
Arguments is_dir : simpl never.
Arguments is_file : simpl never.
Arguments log : simpl never.
Arguments set_file : simpl never.
Arguments add_dir : simpl never.
Arguments path_div : simpl never.
Arguments String.append : simpl never.

(** Case analysis on whatever a conditional or a match of the goal tests. *)
Ltac split_cases :=
  repeat match goal with
         | |- context [if ?b then _ else _] => destruct b
         | |- context [match ?x with Some _ => _ | None => _ end] => destruct x
         end.

(** ** Sequential runs *)

Lemma interp_bind {A B : Type} (net : Remote) (t : Tid) (m : Prog A)
    (f : A -> Prog B) (w : World) :
  interp net t (bind m f) w =
  match interp net t m w with
  | (Ok a, w') => interp net t (f a) w'
  | (Raise e, w') => (Raise e, w')
  end.
Proof.
  revert w. induction m as [a | e | X op k IH]; intros w; simpl; try done.
  destruct (perform net t op w) as [[x | e] w']; [apply IH | done].
Qed.

(** Events are only ever added to the trace. *)
Lemma perform_trace {X : Type} (net : Remote) (t : Tid) (op : Op X) (w : World) :
  exists new, trace (perform net t op w).2 = new ++ trace w.
Proof.
  destruct op; simpl; split_cases; simpl;
    first [by exists [] | by eexists [_]].
Qed.

Lemma interp_trace {A : Type} (net : Remote) (t : Tid) (p : Prog A) (w : World) :
  exists new, trace (interp net t p w).2 = new ++ trace w.
Proof.
  revert w. induction p as [a | e | X op k IH]; intros w; simpl;
    try by exists [].
  destruct (perform_trace net t op w) as [n1 H1].
  destruct (perform net t op w) as [[x | e] w']; simpl in *.
  - destruct (IH x w') as [n2 H2]. exists (n2 ++ n1).
    by rewrite H2, H1, app_assoc.
  - by exists n1.
Qed.

(** Nothing is ever removed from the disk. *)
Definition grows (w w' : World) : Prop :=
  (forall p, is_dir w p = true -> is_dir w' p = true)
  /\ (forall p, is_file w p = true -> is_file w' p = true).

Lemma grows_refl (w : World) : grows w w.
Proof. by split. Qed.

Lemma grows_trans (w1 w2 w3 : World) : grows w1 w2 -> grows w2 w3 -> grows w1 w3.
Proof. intros [? ?] [? ?]; split; auto. Qed.

Lemma grows_exists (w w' : World) (p : Path) :
  grows w w' -> exists_ w p = true -> exists_ w' p = true.
Proof.
  intros [Hd Hf]. unfold exists_. rewrite !orb_true_iff.
  intros [?|?]; [left|right]; auto.
Qed.

Lemma is_file_set_file (w : World) (p q : Path) (data : string) :
  is_file (set_file p data w) q = bool_decide (p = q) || is_file w q.
Proof.
  unfold is_file, set_file; simpl.
  destruct (decide (p = q)) as [->|Hne].
  - rewrite lookup_insert_eq. rewrite bool_decide_eq_true_2 by eauto.
    by rewrite (bool_decide_eq_true_2 (q = q)).
  - rewrite lookup_insert_ne by done. by rewrite (bool_decide_eq_false_2 (p = q)).
Qed.

Lemma grows_log (t : Tid) (ev : Event) (w : World) : grows w (log t ev w).
Proof. by split. Qed.

Lemma grows_set_file (p : Path) (data : string) (w : World) :
  grows w (set_file p data w).
Proof.
  split; intros q; [done|]. rewrite is_file_set_file. intros ->.
  apply orb_true_r.
Qed.

Lemma grows_add_dir (p : Path) (w : World) : grows w (add_dir p w).
Proof.
  split; intros q; [|done]. unfold is_dir, add_dir; simpl.
  rewrite !orb_true_iff, !bool_decide_eq_true.
  intros [?|?]; [by left|right]. apply elem_of_union. by right.
Qed.

Lemma perform_grows {X : Type} (net : Remote) (t : Tid) (op : Op X) (w : World) :
  grows w (perform net t op w).2.
Proof.
  destruct op; simpl; split_cases; simpl;
    eauto using grows_refl, grows_trans, grows_log, grows_set_file, grows_add_dir.
Qed.

(** ** Programs under interference

    [wp t p post] says: whatever the other threads do to the world, as long
    as the invariant [I] holds whenever [p] takes a step, every step of [p]
    keeps [I] and the result of [p] satisfies [post]. *)

Section Wp.
Context {A : Type}.
Variable net : Remote.
Variable I : World -> Prop.

Fixpoint wp (t : Tid) (p : Prog A) (post : Result A -> Prop) : Prop :=
  match p with
  | Ret a => post (Ok a)
  | Throw e => post (Raise e)
  | Vis op k =>
      forall w, I w ->
        I (perform net t op w).2 /\
        match (perform net t op w).1 with
        | Ok x => wp t (k x) post
        | Raise e => post (Raise e)
        end
  end.

Lemma wp_step (t : Tid) (p : Prog A) (post : Result A -> Prop) (w : World) :
  I w -> wp t p post ->
  I (step net t p w).2 /\ wp t (step net t p w).1 post.
Proof.
  destruct p as [a | e | X op k]; simpl; try done.
  intros Hw Hp. destruct (Hp w Hw) as [HI Hk].
  destruct (perform net t op w) as [[x | e] w']; simpl in *; done.
Qed.

Lemma wp_interp (t : Tid) (p : Prog A) (post : Result A -> Prop) (w : World) :
  I w -> wp t p post ->
  I (interp net t p w).2 /\ post (interp net t p w).1.
Proof.
  revert w. induction p as [a | e | X op k IH]; intros w Hw Hp; simpl in *;
    try done.
  destruct (Hp w Hw) as [HI Hk].
  destruct (perform net t op w) as [[x | e] w']; simpl in *; [|done].
  by apply IH.
Qed.

Lemma wp_mono (t : Tid) (p : Prog A) (post post' : Result A -> Prop) :
  (forall r, post r -> post' r) -> wp t p post -> wp t p post'.
Proof.
  intros Hpp. induction p as [a | e | X op k IH]; simpl; auto.
  intros Hp w Hw. destruct (Hp w Hw) as [HI Hk]. split; [done|].
  destruct (perform net t op w).1; auto.
Qed.

(** *** The pool keeps the invariant and every task its postcondition *)

Variable max_workers : nat.
Variable post : nat -> Result A -> Prop.

Definition tasks_ok (ts : list (Task A)) : Prop :=
  forall i t, ts !! i = Some t -> wp (Some i) (code t) (post i).

Lemma pool_step_ok (i : nat) (st : list (Task A) * World) :
  I st.2 -> tasks_ok st.1 ->
  I (pool_step net max_workers i st).2
  /\ tasks_ok (pool_step net max_workers i st).1.
Proof.
  intros Hw Hts. unfold pool_step.
  destruct (st.1 !! i) as [t|] eqn:Hi; [|done].
  destruct (finished (code t)); [done|].
  destruct (may_run max_workers i st.1 t); [|done].
  destruct (wp_step (Some i) (code t) (post i) st.2 Hw (Hts i t Hi))
    as [HI Hk].
  split; [done|]. simpl. intros j tj Hj.
  destruct (decide (i = j)) as [<-|Hne].
  - rewrite list_lookup_insert_eq in Hj by (by eapply lookup_lt_Some).
    by injection Hj as <-.
  - rewrite list_lookup_insert_ne in Hj by done. by apply Hts.
Qed.

Lemma run_schedule_ok (sched : list nat) (st : list (Task A) * World) :
  I st.2 -> tasks_ok st.1 ->
  I (run_schedule net max_workers sched st).2
  /\ tasks_ok (run_schedule net max_workers sched st).1.
Proof.
  revert st. induction sched as [|i sched IH]; intros st Hw Hts; [done|].
  simpl. destruct (pool_step_ok i st Hw Hts). by apply IH.
Qed.

Lemma pool_step_length (i : nat) (st : list (Task A) * World) :
  length (pool_step net max_workers i st).1 = length st.1.
Proof.
  unfold pool_step. split_cases; simpl; try done.
  by rewrite length_insert.
Qed.

Lemma run_schedule_length (sched : list nat) (st : list (Task A) * World) :
  length (run_schedule net max_workers sched st).1 = length st.1.
Proof.
  revert st. induction sched as [|i sched IH]; intros st; [done|].
  simpl. by rewrite IH, pool_step_length.
Qed.

Lemma join_ok (i : nat) (ts : list (Task A)) (w : World) :
  I w ->
  (forall j t, ts !! j = Some t -> wp (Some (i + j)%nat) (code t) (post (i + j)%nat)) ->
  I (join net i ts w).2
  /\ length (join net i ts w).1 = length ts
  /\ forall j r, (join net i ts w).1 !! j = Some r -> post (i + j)%nat r.
Proof.
  revert i w. induction ts as [|t ts IH]; intros i w Hw Hts; simpl.
  { split; [done|]. split; [done|]. intros j r Hj. done. }
  pose proof (Hts 0%nat t eq_refl) as Ht. rewrite Nat.add_0_r in Ht.
  destruct (wp_interp (Some i) (code t) (post i) w Hw Ht) as [HI Hr].
  destruct (IH (S i) (interp net (Some i) (code t) w).2 HI) as (HI' & Hlen & Hrs).
  { intros j tj Hj. replace (S i + j)%nat with (i + S j)%nat by lia.
    by apply Hts. }
  split; [done|]. split; [by rewrite Hlen|].
  intros [|j] r Hj; simpl in Hj.
  - injection Hj as <-. by rewrite Nat.add_0_r.
  - replace (i + S j)%nat with (S i + j)%nat by lia. by apply Hrs.
Qed.

Lemma executor_map_ok {B : Type} (sched : list nat) (fn : B -> Prog A)
    (items : list B) (w : World) :
  I (submit_all (length items) w) ->
  (forall i x, items !! i = Some x -> wp (Some i) (fn x) (post i)) ->
  I (executor_map net max_workers sched fn items w).2
  /\ exists rs,
       (executor_map net max_workers sched fn items w).1 = collect rs
       /\ length rs = length items
       /\ forall i r, rs !! i = Some r -> post i r.
Proof.
  intros Hw Hfn. unfold executor_map.
  set (ts := map (fun x => mkTask false (fn x)) items).
  assert (tasks_ok ts) as Hts.
  { intros i t Hi. unfold ts in Hi. rewrite list_lookup_fmap in Hi.
    destruct (items !! i) as [x|] eqn:Hx; [|done].
    injection Hi as <-. by apply Hfn. }
  destruct (run_schedule_ok sched (ts, submit_all (length items) w) Hw Hts)
    as [HI Hts'].
  set (st := run_schedule net max_workers sched (ts, submit_all (length items) w)) in *.
  destruct (join_ok 0 st.1 st.2 HI) as (HI' & Hlen & Hrs).
  { intros j t Hj. by apply Hts'. }
  split; [done|]. eexists. split; [done|]. split; [|done].
  rewrite Hlen. unfold st. rewrite run_schedule_length. simpl.
  unfold ts. by rewrite length_map.
Qed.

End Wp.

(** ** Collecting results *)


Lemma collect_Ok_inv {A : Type} (rs : list (Result A)) (l : list A) :
  collect rs = Ok l -> rs = map Ok l.
Proof.
  revert l. induction rs as [|[a|e] rs IH]; intros l; simpl.
  - by intros [= <-].
  - destruct (collect rs) as [l'|e]; [|done]. intros [= <-].
    simpl. by rewrite (IH l' eq_refl).
  - done.
Qed.


Lemma collect_raise {A : Type} (rs : list (Result A)) (e : Exn) :
  (forall i r, rs !! i = Some r -> (exists a, r = Ok a) \/ r = Raise e) ->
  (exists i, rs !! i = Some (Raise e)) ->
  collect rs = Raise e.
Proof.
  induction rs as [|r rs IH]; intros Hall [i Hi]; [done|].
  destruct (Hall 0%nat r eq_refl) as [[a ->] | ->]; simpl; [|done].
  destruct i as [|i]; [done|]. rewrite IH; [done| |by exists i].
  intros j r' Hj. by apply (Hall (S j)).
Qed.

(** * Facts about the processor *)

(** ** Paths of the two cache layers *)

Lemma parent_path_div (d : Path) (name : string) : parent (d </> name) = d.
Proof. unfold parent, path_div. apply removelast_last. Qed.


Lemma path_div_inj (d : Path) (a b : string) : d </> a = d </> b -> a = b.
Proof. unfold path_div. intros H. apply app_inv_head in H. by injection H. Qed.

Lemma exists_false (w : World) (p : Path) :
  exists_ w p = false -> is_dir w p = false /\ is_file w p = false.
Proof. unfold exists_. apply orb_false_elim. Qed.

Lemma is_file_lookup (w : World) (p : Path) :
  is_file w p = false -> files w !! p = None.
Proof.
  unfold is_file. rewrite bool_decide_eq_false.
  destruct (files w !! p); [|done]. intros []. eauto.
Qed.

Lemma lookup_is_file (w : World) (p : Path) (data : string) :
  files w !! p = Some data -> is_file w p = true.
Proof. unfold is_file. intros ->. apply bool_decide_eq_true_2. eauto. Qed.

Lemma is_file_exists (w : World) (p : Path) :
  is_file w p = true -> exists_ w p = true.
Proof. unfold exists_. intros ->. apply orb_true_r. Qed.


(** ** download_file *)

Definition failure_notice (url : string) : Event :=
  EvPrint ("Failed to download file: " +:+ url).

Lemma download_file_failed (net : Remote) (t : Tid) (url : string) (p : Path)
    (w : World) :
  status_code (net url) <> 200 ->
  interp net t (download_file url p) w
  = (Ok tt, log t (failure_notice url) (log t (EvGet url) w)).
Proof.
  intros Hs. unfold download_file. simpl.
  destruct (Z.eqb_spec (status_code (net url)) 200); done.
Qed.

Lemma download_file_ok (net : Remote) (t : Tid) (url : string) (p : Path)
    (w : World) :
  status_code (net url) = 200 ->
  is_dir w p = false -> is_dir w (parent p) = true ->
  interp net t (download_file url p) w
  = (Ok tt, log t (EvWrite p) (set_file p (content (net url))
              (log t (EvOpen p) (set_file p "" (log t (EvGet url) w))))).
Proof.
  intros Hs Hp Hd. unfold download_file. simpl. rewrite Hs. simpl.
  change (is_dir (log t (EvGet url) w)) with (is_dir w). by rewrite Hp, Hd.
Qed.

(** ** The constructor *)

Definition new_processor (st cn bt up : string) (base : Path) : ComStockProcessor :=
  mkProcessor st cn bt up base BASE_URL (BASE_URL +:+ "metadata")
    (BASE_URL +:+ "timeseries_individual_buildings").

(** C10: the constructor creates the base directory with a single-level
    mkdir.  When the base directory exists, construction leaves the world as
    it is.  When it does not exist and its parent is missing, construction
    raises FileNotFoundError and creates nothing.  When the parent is a
    directory, exactly the base directory is added. *)
Theorem init_mkdir_single_level (net : Remote) (t : Tid)
    (st cn bt up : string) (base : Path) (w : World) :
  (exists_ w base = true ->
     interp net t (__init__ st cn bt up base) w
     = (Ok (new_processor st cn bt up base), w))
  /\ (exists_ w base = false -> exists_ w (parent base) = false ->
     interp net t (__init__ st cn bt up base) w = (Raise FileNotFoundError, w))
  /\ (exists_ w base = false -> is_dir w (parent base) = true ->
     interp net t (__init__ st cn bt up base) w
     = (Ok (new_processor st cn bt up base),
        log t (EvMkdir base) (add_dir base w))).
Proof.
  unfold __init__; repeat split; intros He; simpl; rewrite He; simpl; try done.
  - intros Hp. destruct (exists_false _ _ Hp) as [-> ->]. by rewrite He.
  - intros ->. by rewrite He.
Qed.

Lemma init_mkdir_single_level_witness :
  interp Toy.offline None (__init__ "CA" "All" "All" "0" ["missing"; "comstock"])
    Toy.disk
  = (Raise FileNotFoundError, Toy.disk)
  /\ interp Toy.offline None (__init__ "CA" "All" "All" "0" Toy.data_dir) Toy.disk
     = (Ok (new_processor "CA" "All" "All" "0" Toy.data_dir), Toy.disk)
  /\ interp Toy.offline None (__init__ "CA" "All" "All" "0" ["comstock"]) Toy.disk
     = (Ok (new_processor "CA" "All" "All" "0" ["comstock"]),
        log None (EvMkdir ["comstock"]) (add_dir ["comstock"] Toy.disk)).
Proof.
  split; [|split].
  - apply (init_mkdir_single_level Toy.offline None "CA" "All" "All" "0"
             ["missing"; "comstock"] Toy.disk); vm_compute; reflexivity.
  - apply (init_mkdir_single_level Toy.offline None "CA" "All" "All" "0"
             Toy.data_dir Toy.disk); vm_compute; reflexivity.
  - apply (init_mkdir_single_level Toy.offline None "CA" "All" "All" "0"
             ["comstock"] Toy.disk); vm_compute; reflexivity.
Defined.

(** ** The two cache files never collide *)

Fixpoint last_char (s : string) : option ascii :=
  match s with
  | EmptyString => None
  | String c EmptyString => Some c
  | String _ s' => last_char s'
  end.

Lemma last_char_app (a b : string) (c : ascii) :
  last_char b = Some c -> last_char (a +:+ b) = Some c.
Proof.
  intros Hb. induction a as [|x a IH]; [done|].
  change (String x a +:+ b) with (String x (a +:+ b)). simpl.
  destruct (a +:+ b); [by simpl in IH | exact IH].
Qed.

Lemma parquet_csv_distinct (self : ComStockProcessor) (d : Path) :
  metadata_parquet d <> output_csv self d.
Proof.
  unfold metadata_parquet, output_csv. intros H%path_div_inj.
  apply (f_equal last_char) in H. revert H.
  erewrite (last_char_app _ _ "v"%char); [done|].
  repeat apply last_char_app. reflexivity.
Qed.

(** ** Filtering and index reset on frames *)

Lemma series_lookup_in (cols : list string) (cells : list Cell) (c : string)
    (v : Cell) :
  series cols cells !! c = Some v -> c ∈ cols.
Proof.
  unfold series. intros H%elem_of_list_to_map_2. by eapply elem_of_zip_l.
Qed.

Lemma apply_filters_holds (fs : list Filter) (full fdf : DataFrame) :
  apply_filters (Some fs) full = Ok fdf ->
  df_index_name fdf = df_index_name full
  /\ df_columns fdf = df_columns full
  /\ forall r, r ∈ df_rows fdf ->
       r ∈ df_rows full /\ forall f, f ∈ fs -> holds full r f = true.
Proof.
  simpl. destruct (forallb _ fs); [|done]. intros [= <-]. simpl.
  repeat split.
  - apply list_elem_of_In. apply list_elem_of_In in H.
    by apply filter_In in H as [? _].
  - intros f Hf. apply list_elem_of_In in H. apply filter_In in H as [_ H].
    rewrite forallb_forall in H. apply H. by apply list_elem_of_In.
Qed.


Lemma reset_index_rows (fdf df : DataFrame) :
  reset_index fdf = Ok df ->
  forall i row, (i, row) ∈ iterrows df ->
    exists r, r ∈ df_rows fdf
      /\ forall c v, field fdf r c = Some v -> row !! c = Some v.
Proof.
  unfold reset_index.
  set (name := match df_index_name fdf with Some n => n | None => _ end).
  destruct (decide (name ∈ df_columns fdf)) as [Hin|Hnin].
  { by rewrite bool_decide_eq_true_2. }
  rewrite bool_decide_eq_false_2 by done. intros [= <-] i row.
  unfold iterrows; simpl. rewrite list_elem_of_fmap.
  intros [[i' cells] [[= -> ->] Hr]]. simpl.
  apply elem_of_lookup_imap in Hr as (n & r & [= -> ->] & Hn).
  exists r. split; [by eapply list_elem_of_lookup_2|].
  intros c v. unfold field, series. simpl.
  change (list_to_map (zip (df_columns fdf) r.2)) with
    (series (df_columns fdf) r.2).
  destruct (series (df_columns fdf) r.2 !! c) as [v'|] eqn:Hc.
  - intros [= <-]. rewrite lookup_insert_ne; [done|].
    intros ->. by apply series_lookup_in in Hc.
  - case_bool_decide as Hi; [|done]. intros [= <-].
    unfold name. rewrite Hi. by rewrite lookup_insert_eq.
Qed.

(** The filter list of a query, as [build_filters] leaves it. *)
Definition state_filter (self : ComStockProcessor) : Filter :=
  ("in.state", OpEq, state self).
Definition county_filter (self : ComStockProcessor) : Filter :=
  ("in.county_name", OpEq, state self +:+ ", " +:+ county_name self).
Definition building_type_filter (self : ComStockProcessor) : Filter :=
  ("in.comstock_building_type", OpEq, building_type self).

Definition filters_of (self : ComStockProcessor) : list Filter :=
  (if negb (String.eqb (state self) "All") then [state_filter self] else [])
  ++ (if negb (String.eqb (county_name self) "All")
         && negb (String.eqb (state self) "All")
      then [county_filter self] else [])
  ++ (if negb (String.eqb (building_type self) "All")
      then [building_type_filter self] else []).

Definition ignores_county (self : ComStockProcessor) : bool :=
  negb (String.eqb (county_name self) "All") && String.eqb (state self) "All".

Definition warned (t : Tid) (self : ComStockProcessor) (w : World) : World :=
  if ignores_county self then log t (EvPrint COUNTY_WARNING) w else w.

Lemma build_filters_run (net : Remote) (t : Tid) (self : ComStockProcessor)
    (w : World) :
  interp net t (build_filters self) w = (Ok (filters_of self), warned t self w).
Proof.
  unfold build_filters, filters_of, warned, ignores_county,
    state_filter, county_filter, building_type_filter.
  destruct (String.eqb (state self) "All");
    destruct (String.eqb (county_name self) "All");
    destruct (String.eqb (building_type self) "All"); reflexivity.
Qed.

Definition filter_arg (fs : list Filter) : option (list Filter) :=
  if (length fs =? 0)%nat then None else Some fs.

(** What the fresh path makes of the bytes of the raw metadata file. *)
Definition fresh_frame (cd : Codec) (self : ComStockProcessor) (data : string)
    : Result DataFrame :=
  match parquet_decode cd data with
  | None => Raise ArrowInvalid
  | Some full =>
      match apply_filters (filter_arg (filters_of self)) full with
      | Ok fdf => reset_index fdf
      | Raise e => Raise e
      end
  end.

Lemma fresh_frame_rows (cd : Codec) (self : ComStockProcessor) (data : string)
    (df : DataFrame) :
  fresh_frame cd self data = Ok df ->
  forall i row f, (i, row) ∈ iterrows df -> f ∈ filters_of self ->
    row !! f.1.1 = Some (CStr f.2).
Proof.
  unfold fresh_frame. destruct (parquet_decode cd data) as [full|]; [|done].
  destruct (apply_filters _ full) as [fdf|] eqn:Hf; [|done].
  intros Hr i row f Hrow Hin.
  destruct (reset_index_rows _ _ Hr i row Hrow) as (r & Hrin & Hfield).
  unfold filter_arg in Hf. destruct (filters_of self) as [|f0 fs] eqn:E.
  { by apply elem_of_nil in Hin. }
  change (apply_filters (Some (f0 :: fs)) full = Ok fdf) in Hf.
  apply apply_filters_holds in Hf as (Hi & Hc & Hrows).
  destruct (Hrows r Hrin) as [_ Hh]. specialize (Hh f Hin).
  apply Hfield. destruct f as [[c []] v]. simpl in *.
  apply bool_decide_eq_true in Hh. unfold field in *. by rewrite Hi, Hc.
Qed.

(** ** process_metadata, stage by stage *)

Definition metadata_link (self : ComStockProcessor) : string :=
  metadata_url self +:+ "/baseline.parquet".

Definition skip_download_notice : Event :=
  EvPrint "Metadata parquet already exists. Skipping download.".

Definition downloading_notice (self : ComStockProcessor) : Event :=
  EvPrint ("Downloading metadata file: " +:+ metadata_link self).

Definition skip_creation_notice (out : Path) : Event :=
  EvPrint ("Metadata csv already exists. Skipping creation. Delete "
           +:+ path_str out +:+ " if you want to save again.").

(** The first statement of [process_metadata]: make sure the raw file is there. *)
Definition pm_fetch (self : ComStockProcessor) (d : Path) : Prog unit :=
  b <~ trigger (OExists (metadata_parquet d));
  if b then
    trigger (OPrint "Metadata parquet already exists. Skipping download.")
  else
    exec trigger (OPrint ("Downloading metadata file: " +:+ metadata_link self));
    download_file (metadata_link self) (metadata_parquet d).

(** The rest of it: load the projection, or filter and save it. *)
Definition pm_project (cd : Codec) (self : ComStockProcessor) (d : Path)
    : Prog DataFrame :=
  b <~ trigger (OExists (output_csv self d));
  if b then
    exec trigger (OPrint ("Metadata csv already exists. Skipping creation. Delete "
                          +:+ path_str (output_csv self d)
                          +:+ " if you want to save again."));
    meta_df <~ pd.read_csv cd (output_csv self d);
    Ret meta_df
  else
    filters <~ build_filters self;
    meta_df <~ pd.read_parquet cd (metadata_parquet d) (filter_arg filters);
    meta_df <~ lift (reset_index meta_df);
    exec pd.to_csv cd meta_df (output_csv self d);
    Ret meta_df.

Lemma process_metadata_split (cd : Codec) (self : ComStockProcessor) (d : Path) :
  process_metadata cd self d
  = bind (pm_fetch self d) (fun _ => pm_project cd self d).
Proof. reflexivity. Qed.

Lemma files_log (t : Tid) (ev : Event) (w : World) : files (log t ev w) = files w.
Proof. done. Qed.
Lemma dirs_log (t : Tid) (ev : Event) (w : World) : dirs (log t ev w) = dirs w.
Proof. done. Qed.
Lemma files_set_file (p : Path) (data : string) (w : World) :
  files (set_file p data w) = <[p := data]> (files w).
Proof. done. Qed.
Lemma is_dir_log (t : Tid) (ev : Event) (w : World) (p : Path) :
  is_dir (log t ev w) p = is_dir w p.
Proof. done. Qed.
Lemma is_file_log (t : Tid) (ev : Event) (w : World) (p : Path) :
  is_file (log t ev w) p = is_file w p.
Proof. done. Qed.
Lemma exists_log (t : Tid) (ev : Event) (w : World) (p : Path) :
  exists_ (log t ev w) p = exists_ w p.
Proof. done. Qed.

Lemma warned_files (t : Tid) (self : ComStockProcessor) (w : World) :
  files (warned t self w) = files w /\ dirs (warned t self w) = dirs w.
Proof. unfold warned. by destruct (ignores_county self). Qed.

Lemma is_dir_warned (t : Tid) (self : ComStockProcessor) (w : World) (p : Path) :
  is_dir (warned t self w) p = is_dir w p.
Proof. unfold warned. by destruct (ignores_county self). Qed.

Lemma is_file_warned (t : Tid) (self : ComStockProcessor) (w : World) (p : Path) :
  is_file (warned t self w) p = is_file w p.
Proof. unfold warned. by destruct (ignores_county self). Qed.

Lemma exists_congr (w w' : World) (p : Path) :
  dirs w' = dirs w -> files w' !! p = files w !! p -> exists_ w' p = exists_ w p.
Proof. unfold exists_, is_dir, is_file. by intros -> ->. Qed.

Section Metadata.
Variable cd : Codec.
Variable net : Remote.
Variable t : Tid.
Variable self : ComStockProcessor.
Variable d : Path.

Local Abbreviation raw := (metadata_parquet d).
Local Abbreviation out := (output_csv self d).
Local Abbreviation link := (metadata_link self).

Lemma pm_fetch_cached (w : World) :
  exists_ w raw = true ->
  interp net t (pm_fetch self d) w = (Ok tt, log t skip_download_notice w).
Proof. intros H. unfold pm_fetch. simpl. by rewrite H. Qed.

Lemma pm_fetch_failed (w : World) :
  exists_ w raw = false -> status_code (net link) <> 200 ->
  interp net t (pm_fetch self d) w
  = (Ok tt, log t (failure_notice link)
              (log t (EvGet link) (log t (downloading_notice self) w))).
Proof.
  intros H Hs. unfold pm_fetch. simpl. rewrite H. simpl.
  change (interp net t (download_file link raw) (log t (downloading_notice self) w)
          = (Ok tt, log t (failure_notice link)
              (log t (EvGet link) (log t (downloading_notice self) w)))).
  by apply download_file_failed.
Qed.

(** The fetch stage touches nothing but the raw metadata file. *)
Lemma pm_fetch_frame (w : World) :
  dirs (interp net t (pm_fetch self d) w).2 = dirs w
  /\ forall q, q <> raw ->
       files (interp net t (pm_fetch self d) w).2 !! q = files w !! q.
Proof.
  unfold pm_fetch, download_file. simpl.
  destruct (exists_ w raw); simpl; [done|].
  destruct (status_code (net link) =? 200); simpl; [|done].
  rewrite ?is_dir_log.
  destruct (is_dir w raw); simpl; [done|].
  destruct (is_dir w (parent raw)); simpl.
  - split; [done|]. intros q Hq.
    by rewrite !lookup_insert_ne.
  - rewrite ?is_file_log. by destruct (is_file w (parent raw)).
Qed.

Lemma pm_fetch_out (w : World) :
  exists_ (interp net t (pm_fetch self d) w).2 out = exists_ w out.
Proof.
  destruct (pm_fetch_frame w) as [Hd Hf]. apply exists_congr; [done|].
  apply Hf. intros E. by apply (parquet_csv_distinct self d).
Qed.

(** After a fetch stage that did not raise, a raw file that was there
    still is, and a missing one is there exactly when the store said 200. *)
Lemma pm_fetch_raw (w w1 : World) :
  interp net t (pm_fetch self d) w = (Ok tt, w1) ->
  exists_ w1 raw = exists_ w raw || (status_code (net link) =? 200).
Proof.
  unfold pm_fetch, download_file. simpl.
  destruct (exists_ w raw) eqn:He; simpl.
  { intros [= <-]. by rewrite ?exists_log. }
  destruct (status_code (net link) =? 200); simpl.
  - rewrite ?is_dir_log. destruct (is_dir w raw); simpl; [done|].
    destruct (is_dir w (parent raw)); simpl.
    + intros [= <-]. unfold exists_. rewrite ?is_file_log, is_file_set_file.
      rewrite bool_decide_eq_true_2 by done. simpl. apply orb_true_r.
    + rewrite ?is_file_log. by destruct (is_file w (parent raw)).
  - intros [= <-]. by rewrite ?exists_log.
Qed.

Lemma pm_project_cached (w : World) :
  exists_ w out = true ->
  interp net t (pm_project cd self d) w
  = match files w !! out with
    | Some data =>
        (match csv_decode cd data with
         | Some df => Ok df
         | None => Raise ParserError
         end,
         log t (EvRead out) (log t (skip_creation_notice out) w))
    | None =>
        (Raise (if is_dir w out then IsADirectoryError else FileNotFoundError),
         log t (skip_creation_notice out) w)
    end.
Proof.
  intros H. unfold pm_project. simpl. rewrite H. simpl.
  rewrite ?files_log, ?is_dir_log.
  destruct (files w !! out) as [data|]; simpl.
  - by destruct (csv_decode cd data).
  - by destruct (is_dir w out).
Qed.

Lemma pm_project_fresh (w : World) :
  exists_ w out = false ->
  interp net t (pm_project cd self d) w
  = match files w !! raw with
    | None =>
        (Raise (if is_dir w raw then IsADirectoryError else FileNotFoundError),
         warned t self w)
    | Some data =>
        let w2 := log t (EvRead raw) (warned t self w) in
        match fresh_frame cd self data with
        | Raise e => (Raise e, w2)
        | Ok df =>
            if is_dir w d then
              (Ok df, log t (EvWrite out) (set_file out (csv_encode cd df)
                        (log t (EvOpen out) (set_file out "" w2))))
            else
              (Raise (if is_file w d then NotADirectoryError
                      else FileNotFoundError), w2)
        end
    end.
Proof.
  intros H. unfold pm_project. simpl. rewrite H.
  rewrite interp_bind, build_filters_run. simpl.
  destruct (warned_files t self w) as [Hf Hd]. rewrite Hf, ?is_dir_warned.
  destruct (files w !! raw) as [data|]; simpl.
  2:{ by destruct (is_dir w raw). }
  unfold fresh_frame. destruct (parquet_decode cd data) as [full|]; [|done].
  destruct (apply_filters _ full) as [fdf|]; simpl; [|done].
  destruct (reset_index fdf) as [df|]; simpl; [|done].
  rewrite ?is_dir_log, ?is_dir_warned, ?is_file_log, ?is_file_warned.
  destruct (exists_false _ _ H) as [-> _].
  assert (parent out = d) as -> by apply parent_path_div.
  destruct (is_dir w d); [done|]. by destruct (is_file w d).
Qed.

End Metadata.

(** * The claims *)

(** ** Metadata: filter correctness *)

Lemma eqb_All (s : string) : s <> "All" -> String.eqb s "All" = false.
Proof. by intros H%String.eqb_neq. Qed.

(** What a run of [process_metadata] on the fresh path amounts to. *)
Lemma process_metadata_fresh_inv (cd : Codec) (net : Remote) (t : Tid)
    (self : ComStockProcessor) (d : Path) (w w' : World) (df : DataFrame) :
  exists_ w (output_csv self d) = false ->
  interp net t (process_metadata cd self d) w = (Ok df, w') ->
  exists w1 data,
    interp net t (pm_fetch self d) w = (Ok tt, w1)
    /\ files w1 !! metadata_parquet d = Some data
    /\ fresh_frame cd self data = Ok df
    /\ is_dir w1 d = true
    /\ w' = log t (EvWrite (output_csv self d))
              (set_file (output_csv self d) (csv_encode cd df)
                 (log t (EvOpen (output_csv self d))
                    (set_file (output_csv self d) ""
                       (log t (EvRead (metadata_parquet d)) (warned t self w1))))).
Proof.
  intros Hout. rewrite process_metadata_split, interp_bind.
  pose proof (pm_fetch_out net t self d w) as Ho.
  destruct (interp net t (pm_fetch self d) w) as [[[]|e] w1]; [|done].
  simpl in Ho. rewrite Hout in Ho. rewrite (pm_project_fresh _ _ _ _ _ _ Ho).
  destruct (files w1 !! metadata_parquet d) as [data|] eqn:Hd; [|done]. simpl.
  destruct (fresh_frame cd self data) as [df'|] eqn:Hf; [|done].
  destruct (is_dir w1 d) eqn:Hi; [|by destruct (is_file w1 d)].
  intros [= -> <-]. by exists w1, data.
Qed.

(** C1: on the fresh-filter path every returned row satisfies every active
    equality filter at once (state, the compound "state, county" string
    when both are given, building type); with all three fields at "All" the
    result is the whole raw table, only with its index reset. *)
Theorem process_metadata_filter_correct (cd : Codec) (net : Remote) (t : Tid)
    (self : ComStockProcessor) (d : Path) (w w' : World) (df : DataFrame) :
  exists_ w (output_csv self d) = false ->
  interp net t (process_metadata cd self d) w = (Ok df, w') ->
  (forall i row, (i, row) ∈ iterrows df ->
     (state self <> "All" -> row !! "in.state" = Some (CStr (state self)))
     /\ (state self <> "All" -> county_name self <> "All" ->
         row !! "in.county_name"
         = Some (CStr (state self +:+ ", " +:+ county_name self)))
     /\ (building_type self <> "All" ->
         row !! "in.comstock_building_type" = Some (CStr (building_type self))))
  /\ (state self = "All" -> county_name self = "All" ->
      building_type self = "All" ->
      exists data full,
        files w' !! metadata_parquet d = Some data
        /\ parquet_decode cd data = Some full
        /\ reset_index full = Ok df).
Proof.
  intros Hout Hrun.
  destruct (process_metadata_fresh_inv _ _ _ _ _ _ _ _ Hout Hrun)
    as (w1 & data & Hfetch & Hdata & Hframe & Hdir & ->).
  split.
  - intros i row Hrow.
    pose proof (fresh_frame_rows _ _ _ _ Hframe i row) as Hall.
    repeat split.
    + intros Hs. apply (Hall (state_filter self)); [done|].
      unfold filters_of. rewrite (eqb_All _ Hs). simpl. apply list_elem_of_here.
    + intros Hs Hc. apply (Hall (county_filter self)); [done|].
      unfold filters_of. rewrite (eqb_All _ Hs), (eqb_All _ Hc). simpl.
      apply list_elem_of_further, list_elem_of_here.
    + intros Hb. apply (Hall (building_type_filter self)); [done|].
      unfold filters_of. rewrite (eqb_All _ Hb). simpl.
      rewrite !elem_of_app. right. right. apply list_elem_of_here.
  - intros Hs Hc Hb. exists data. unfold fresh_frame in Hframe.
    destruct (parquet_decode cd data) as [full|]; [|done]. exists full.
    split.
    + repeat first
        [ rewrite files_log
        | rewrite files_set_file, lookup_insert_ne
            by (intros E; by apply (parquet_csv_distinct self d)) ].
      destruct (warned_files t self w1) as [-> _]. done.
    + split; [done|]. unfold filters_of in Hframe.
      rewrite Hs, Hc, Hb in Hframe. simpl in Hframe. done.
Qed.

Lemma process_metadata_filter_correct_witness :
  let self := Toy.processor "DE" "All" "SmallOffice" in
  let run := interp Toy.remote None (process_metadata Toy.codec self Toy.data_dir)
               Toy.disk in
  run.1 = Ok Toy.de_small_offices
  /\ forall i row,
       (i, row) ∈ iterrows
         Toy.de_small_offices ->
       row !! "in.state" = Some (CStr "DE")
       /\ row !! "in.comstock_building_type" = Some (CStr "SmallOffice").
Proof.
  intros self run. split; [vm_compute; reflexivity|]. intros i row Hrow.
  destruct (process_metadata_filter_correct Toy.codec Toy.remote None self
              Toy.data_dir Toy.disk run.2 _ ltac:(vm_compute; reflexivity)
              ltac:(vm_compute; reflexivity)) as [Hrows _].
  destruct (Hrows i row Hrow) as (Hs & _ & Hb).
  split; [by apply Hs | by apply Hb].
Defined.

Lemma events_since_app (w w' : World) (new : list (Tid * Event)) :
  trace w' = new ++ trace w -> events_since w w' = new.
Proof.
  intros H. unfold events_since. rewrite H, length_app.
  replace (length new + length (trace w) - length (trace w))%nat
    with (length new) by lia.
  by rewrite take_app_length.
Qed.

(** ** Metadata: a failed download *)

(** C6: when the metadata download gets a non-success status,
    [download_file] writes nothing and raises nothing; the raw metadata file
    is still missing after the fetch stage; reading it fails with
    FileNotFoundError, and [process_metadata], which reaches that read when
    no projection is cached, lets the error through to its caller. *)
Theorem metadata_download_failure (cd : Codec) (net : Remote) (t : Tid)
    (self : ComStockProcessor) (d : Path) (w : World) :
  exists_ w (metadata_parquet d) = false ->
  status_code (net (metadata_link self)) <> 200 ->
  let w1 := log t (failure_notice (metadata_link self))
              (log t (EvGet (metadata_link self))
                 (log t (downloading_notice self) w)) in
  interp net t (download_file (metadata_link self) (metadata_parquet d)) w
  = (Ok tt, log t (failure_notice (metadata_link self))
              (log t (EvGet (metadata_link self)) w))
  /\ interp net t (pm_fetch self d) w = (Ok tt, w1)
  /\ files w1 = files w
  /\ exists_ w1 (metadata_parquet d) = false
  /\ (forall filters,
        interp net t (pd.read_parquet cd (metadata_parquet d) filters) w1
        = (Raise FileNotFoundError, w1))
  /\ (exists_ w (output_csv self d) = false ->
      interp net t (process_metadata cd self d) w
      = (Raise FileNotFoundError, warned t self w1)).
Proof.
  intros Hraw Hs w1. destruct (exists_false _ _ Hraw) as [Hd Hf].
  pose proof (is_file_lookup _ _ Hf) as Hl.
  split; [by apply download_file_failed|].
  split; [by apply pm_fetch_failed|].
  split; [done|]. split; [done|]. split.
  - intros filters. unfold pd.read_parquet. simpl.
    change (files w1) with (files w). change (is_dir w1) with (is_dir w).
    by rewrite Hl, Hd.
  - intros Hout. rewrite process_metadata_split, interp_bind.
    rewrite pm_fetch_failed by done. fold w1.
    rewrite pm_project_fresh by done.
    change (files w1) with (files w). change (is_dir w1) with (is_dir w).
    by rewrite Hl, Hd.
Qed.

Lemma metadata_download_failure_witness :
  interp Toy.offline None
    (process_metadata Toy.codec (Toy.processor "DE" "All" "SmallOffice") Toy.data_dir)
    Toy.disk
  = (Raise FileNotFoundError,
     log None (failure_notice (metadata_link (Toy.processor "DE" "All" "SmallOffice")))
       (log None (EvGet (metadata_link (Toy.processor "DE" "All" "SmallOffice")))
          (log None (downloading_notice (Toy.processor "DE" "All" "SmallOffice"))
             Toy.disk))).
Proof.
  apply (metadata_download_failure Toy.codec Toy.offline None
           (Toy.processor "DE" "All" "SmallOffice") Toy.data_dir Toy.disk);
    vm_compute; first [reflexivity | discriminate].
Defined.

(** ** Metadata: calling twice *)







(** ** Metadata: a county without a state *)

Lemma filters_of_with_county (self : ComStockProcessor) (county : string) :
  state self = "All" ->
  filters_of (with_county county self) = filters_of self.
Proof.
  intros Hs. unfold filters_of, state_filter, county_filter,
    building_type_filter, with_county. simpl. rewrite Hs. simpl.
  by rewrite !andb_false_r.
Qed.

(** C5, as the code has it: on the fresh-filter path (no projection cached
    for either query) a county given without a state is ignored.  The call
    ends exactly as the same query with county "All" ends, with the same
    rows or the same error, and whenever it returns it has printed the
    warning. *)
Theorem county_without_state_ignored (cd : Codec) (net : Remote) (t : Tid)
    (self : ComStockProcessor) (d : Path) (w : World) :
  state self = "All" -> county_name self <> "All" ->
  exists_ w (output_csv self d) = false ->
  exists_ w (output_csv (with_county "All" self) d) = false ->
  (interp net t (process_metadata cd self d) w).1
  = (interp net t (process_metadata cd (with_county "All" self) d) w).1
  /\ forall df w',
       interp net t (process_metadata cd self d) w = (Ok df, w') ->
       printed t COUNTY_WARNING (events_since w w') = true.
Proof.
  intros Hs Hc Hout Hout'. split.
  - rewrite !process_metadata_split, !interp_bind.
    pose proof (pm_fetch_out net t self d w) as Ho.
    pose proof (pm_fetch_out net t (with_county "All" self) d w) as Ho'.
    change (pm_fetch (with_county "All" self) d) with (pm_fetch self d) in *.
    destruct (interp net t (pm_fetch self d) w) as [[[]|e] w1]; [|done].
    simpl in Ho, Ho'. rewrite Hout in Ho. rewrite Hout' in Ho'.
    rewrite !pm_project_fresh by done.
    destruct (files w1 !! metadata_parquet d) as [data|]; [|done]. simpl.
    unfold fresh_frame. rewrite (filters_of_with_county self "All" Hs).
    destruct (parquet_decode cd data) as [full|]; [|done].
    destruct (apply_filters _ full) as [fdf|]; [|done].
    destruct (reset_index fdf) as [df|]; [|done].
    by destruct (is_dir w1 d).
  - intros df w' Hrun.
    destruct (process_metadata_fresh_inv _ _ _ _ _ _ _ _ Hout Hrun)
      as (w1 & data & Hfetch & _ & _ & _ & ->).
    destruct (interp_trace net t (pm_fetch self d) w) as [new Hnew].
    rewrite Hfetch in Hnew. simpl in Hnew.
    assert (ignores_county self = true) as Hi.
    { unfold ignores_county. by rewrite Hs, (eqb_All _ Hc). }
    rewrite (events_since_app w _
               ([(t, EvWrite (output_csv self d)); (t, EvOpen (output_csv self d));
                 (t, EvRead (metadata_parquet d)); (t, EvPrint COUNTY_WARNING)]
                ++ new)).
    + apply bool_decide_eq_true_2. rewrite elem_of_app. left.
      do 3 apply list_elem_of_further. apply list_elem_of_here.
    + unfold warned. rewrite Hi. unfold log, set_file. simpl. by rewrite Hnew.
Qed.

Lemma county_without_state_ignored_witness :
  let run county :=
    interp Toy.remote None
      (process_metadata Toy.codec (Toy.processor "All" county "MediumOffice")
         Toy.data_dir) Toy.disk in
  (run "Sussex").1 = (run "All").1
  /\ (run "Sussex").1
     = Ok Toy.medium_offices
  /\ printed None COUNTY_WARNING (events_since Toy.disk (run "Sussex").2) = true.
Proof.
  intros run.
  destruct (county_without_state_ignored Toy.codec Toy.remote None
              (Toy.processor "All" "Sussex" "MediumOffice") Toy.data_dir Toy.disk
              ltac:(reflexivity) ltac:(discriminate)
              ltac:(vm_compute; reflexivity) ltac:(vm_compute; reflexivity))
    as [Heq Hwarn].
  split; [exact Heq|]. split; [vm_compute; reflexivity|].
  apply (Hwarn Toy.medium_offices (run "Sussex").2). vm_compute. reflexivity.
Defined.

(** The claim as the spec words it fails on a projection-cache hit: the
    second run of the very same query returns the cached rows and prints no
    warning. *)
Lemma county_warning_missing_on_cache_hit :
  let self := Toy.processor "All" "Sussex" "MediumOffice" in
  let run1 := interp Toy.remote None (process_metadata Toy.codec self Toy.data_dir)
                Toy.disk in
  let run2 := interp Toy.remote None (process_metadata Toy.codec self Toy.data_dir)
                run1.2 in
  run2.1
  = Ok Toy.medium_offices
  /\ printed None COUNTY_WARNING (events_since Toy.disk run1.2) = true
  /\ printed None COUNTY_WARNING (events_since run1.2 run2.2) = false.
Proof.
  intros self run1 run2. repeat split; vm_compute; reflexivity.
Qed.

(** ** Time series: one task *)

Definition target (self : ComStockProcessor) (d : Path) (c : Cell) : Path :=
  save_path_of self d (str c).

Definition series_link (self : ComStockProcessor) (st c : Cell) : string :=
  time_series_file self (str st) (str c).

Lemma parent_target (self : ComStockProcessor) (d : Path) (c : Cell) :
  parent (target self d c) = d.
Proof. apply parent_path_div. Qed.

Lemma download_task_no_id (self : ComStockProcessor) (d : Path)
    (row : gmap string Cell) :
  row !! "bldg_id" = None ->
  download_task self d row = Throw (KeyError "bldg_id").
Proof. intros H. unfold download_task, getitem. by rewrite H. Qed.

Lemma download_task_unfold (self : ComStockProcessor) (d : Path)
    (row : gmap string Cell) (c : Cell) :
  row !! "bldg_id" = Some c ->
  download_task self d row
  = Vis (OExists (target self d c))
      (fun b : bool =>
         if b then Ret (target self d c, str c)
         else
           st <~ getitem row "in.state";
           exec download_file (series_link self st c) (target self d c);
           Ret (target self d c, str c)).
Proof. intros H. unfold download_task, getitem. by rewrite H. Qed.

Lemma download_task_hit (net : Remote) (t : Tid) (self : ComStockProcessor)
    (d : Path) (row : gmap string Cell) (c : Cell) (w : World) :
  row !! "bldg_id" = Some c ->
  exists_ w (target self d c) = true ->
  interp net t (download_task self d row) w = (Ok (target self d c, str c), w).
Proof.
  intros Hc He. rewrite (download_task_unfold _ _ _ _ Hc). simpl. by rewrite He.
Qed.

Lemma download_task_miss_no_state (net : Remote) (t : Tid)
    (self : ComStockProcessor) (d : Path) (row : gmap string Cell) (c : Cell)
    (w : World) :
  row !! "bldg_id" = Some c -> row !! "in.state" = None ->
  exists_ w (target self d c) = false ->
  interp net t (download_task self d row) w = (Raise (KeyError "in.state"), w).
Proof.
  intros Hc Hs He. rewrite (download_task_unfold _ _ _ _ Hc). simpl.
  rewrite He. unfold getitem. by rewrite Hs.
Qed.

Lemma download_task_miss_failed (net : Remote) (t : Tid)
    (self : ComStockProcessor) (d : Path) (row : gmap string Cell) (c st : Cell)
    (w : World) :
  row !! "bldg_id" = Some c -> row !! "in.state" = Some st ->
  exists_ w (target self d c) = false ->
  status_code (net (series_link self st c)) <> 200 ->
  interp net t (download_task self d row) w
  = (Ok (target self d c, str c),
     log t (failure_notice (series_link self st c))
       (log t (EvGet (series_link self st c)) w)).
Proof.
  intros Hc Hs He Hst. rewrite (download_task_unfold _ _ _ _ Hc). simpl.
  rewrite He. unfold getitem. rewrite Hs. simpl.
  by destruct (Z.eqb_spec (status_code (net (series_link self st c))) 200).
Qed.

Lemma download_task_shape (net : Remote) (t : Tid) (self : ComStockProcessor)
    (d : Path) (row : gmap string Cell) :
  wp net (fun _ => True) t (download_task self d row)
    (fun r => forall v, r = Ok v ->
       exists c, row !! "bldg_id" = Some c /\ v = (target self d c, str c)).
Proof.
  destruct (row !! "bldg_id") as [c|] eqn:Hc.
  2:{ rewrite download_task_no_id by done. simpl. done. }
  rewrite (download_task_unfold _ _ _ _ Hc). simpl. intros w _. split; [done|].
  destruct (exists_ w (target self d c)).
  { intros v [= <-]. eauto. }
  unfold getitem. destruct (row !! "in.state") as [st|]; simpl; [|done].
  unfold download_file. simpl. intros w1 _. split; [done|].
  destruct (status_code _ =? 200); simpl.
  - intros w2 _. split; [done|].
    destruct (is_dir w2 _); simpl; [done|].
    destruct (is_dir w2 _); simpl.
    + intros w3 _. split; [done|]. intros v [= <-]. eauto.
    + by destruct (is_file w2 _).
  - intros w2 _. split; [done|]. intros v [= <-]. eauto.
Qed.

(** ** Time series: the fan-out *)

(** The world in which the first task may start: the worker count has been
    announced and every task submitted. *)
Definition pool_start (cpu_count n : nat) (w : World) : World :=
  submit_all n (log None (worker_notice cpu_count) w).

Lemma length_data_rows (df : DataFrame) :
  length (data_rows df) = length (df_rows df).
Proof. unfold data_rows, iterrows. by rewrite !length_map. Qed.

Lemma submit_all_spec (n : nat) (w : World) :
  files (submit_all n w) = files w /\ dirs (submit_all n w) = dirs w
  /\ trace (submit_all n w)
     = rev (map (fun i => (None, EvSubmit i)) (seq 0 n)) ++ trace w.
Proof.
  unfold submit_all. generalize 0%nat. revert w.
  induction n as [|n IH]; intros w k; simpl; [done|].
  destruct (IH (log None (EvSubmit k) w) (S k)) as (-> & -> & ->).
  split; [done|]. split; [done|]. simpl. by rewrite <- app_assoc.
Qed.

Lemma pbts_ok (net : Remote) (I : World -> Prop)
    (post : nat -> Result (Path * string) -> Prop) (cpus : nat)
    (sched : list nat) (self : ComStockProcessor) (df : DataFrame) (d : Path)
    (w : World) :
  I (pool_start cpus (length (df_rows df)) w) ->
  (forall i row, data_rows df !! i = Some row ->
     wp net I (Some i) (download_task self d row) (post i)) ->
  I (process_building_time_series net cpus sched self df d w).2
  /\ exists rs,
       length rs = length (df_rows df)
       /\ (forall i r, rs !! i = Some r -> post i r)
       /\ (process_building_time_series net cpus sched self df d w).1
          = match collect rs with
            | Ok results => Ok (map fst results, map snd results)
            | Raise e => Raise e
            end.
Proof.
  intros HI Hwp. unfold process_building_time_series. cbv zeta.
  change (interp net None (trigger (OPrint _)) w).2
    with (log None (worker_notice cpus) w).
  rewrite <- length_data_rows in HI.
  destruct (executor_map_ok net I (Nat.max 1 (cpus - 1)) post sched
              (download_task self d) (data_rows df) _ HI Hwp)
    as (HI' & rs & Hres & Hlen & Hpost).
  set (r := executor_map net _ sched _ _ _) in *. rewrite Hres.
  split.
  - by destruct (collect rs).
  - exists rs. rewrite Hlen, length_data_rows. split; [done|]. split; [done|].
    destruct (collect rs) as [[|x l]|e]; done.
Qed.

Lemma collect_total {A : Type} (rs : list (Result A)) :
  (forall i r, rs !! i = Some r -> exists a, r = Ok a) ->
  exists l, collect rs = Ok l.
Proof.
  induction rs as [|r rs IH]; intros H; simpl; [by eexists|].
  destruct (H 0%nat r eq_refl) as [a ->].
  destruct IH as [l ->]; [|by eexists].
  intros i r' Hi. by apply (H (S i)).
Qed.

(** What the two output lists must be, entry by entry. *)
Definition aligned (self : ComStockProcessor) (d : Path) (df : DataFrame)
    (v : list Path * list string) : Prop :=
  length v.1 = length (df_rows df) /\ length v.2 = length (df_rows df)
  /\ forall i row, data_rows df !! i = Some row ->
       exists c, row !! "bldg_id" = Some c
         /\ v.1 !! i = Some (target self d c) /\ v.2 !! i = Some (str c).

Lemma aligned_unique (self : ComStockProcessor) (d : Path) (df : DataFrame)
    (v v' : list Path * list string) :
  aligned self d df v -> aligned self d df v' -> v = v'.
Proof.
  intros (L1 & L2 & H) (L1' & L2' & H'). destruct v as [p i], v' as [p' i'].
  simpl in *. f_equal; apply list_eq; intros k.
  - destruct (data_rows df !! k) as [row|] eqn:Hk.
    + destruct (H k row Hk) as (c & Hc & -> & _).
      destruct (H' k row Hk) as (c' & Hc' & -> & _). congruence.
    + apply lookup_ge_None in Hk. rewrite length_data_rows in Hk.
      rewrite !(proj2 (lookup_ge_None _ _)); [done|lia|lia].
  - destruct (data_rows df !! k) as [row|] eqn:Hk.
    + destruct (H k row Hk) as (c & Hc & _ & ->).
      destruct (H' k row Hk) as (c' & Hc' & _ & ->). congruence.
    + apply lookup_ge_None in Hk. rewrite length_data_rows in Hk.
      rewrite !(proj2 (lookup_ge_None _ _)); [done|lia|lia].
Qed.

(** Results that each have the expected shape collect to aligned lists. *)
Lemma collect_aligned (self : ComStockProcessor) (d : Path) (df : DataFrame)
    (rs : list (Result (Path * string))) (results : list (Path * string)) :
  length rs = length (df_rows df) ->
  (forall i r, rs !! i = Some r ->
     forall row, data_rows df !! i = Some row ->
       forall v, r = Ok v ->
         exists c, row !! "bldg_id" = Some c /\ v = (target self d c, str c)) ->
  collect rs = Ok results ->
  aligned self d df (map fst results, map snd results).
Proof.
  intros Hlen Hpost Hc. apply collect_Ok_inv in Hc. subst rs.
  rewrite length_map in Hlen. unfold aligned. simpl. rewrite !length_map.
  split; [done|]. split; [done|]. intros i row Hrow.
  assert (i < length results)%nat as Hi.
  { rewrite Hlen, <- length_data_rows. by eapply lookup_lt_Some. }
  destruct (lookup_lt_is_Some_2 _ _ Hi) as [v Hv].
  destruct (Hpost i (Ok v)) with (row := row) (v := v) as (c & Hc & ->);
    [by rewrite list_lookup_fmap, Hv | done | done |].
  exists c. by rewrite !list_lookup_fmap, Hv.
Qed.

(** ** Time series: the empty row set *)

Lemma run_schedule_nil {A : Type} (net : Remote) (n : nat) (sched : list nat)
    (w : World) :
  run_schedule (A := A) net n sched ([], w) = ([], w).
Proof. induction sched as [|i sched IH]; [done|]. simpl. exact IH. Qed.

(** C7: on an empty row set the call returns two empty lists; the only
    thing it does is announce the worker count: nothing is submitted to the
    pool (so no worker thread is started) and no request is made. *)
Theorem empty_row_set (net : Remote) (cpus : nat) (sched : list nat)
    (self : ComStockProcessor) (df : DataFrame) (d : Path) (w : World) :
  df_rows df = [] ->
  process_building_time_series net cpus sched self df d w
  = (Ok ([], []), log None (worker_notice cpus) w)
  /\ events_since w (log None (worker_notice cpus) w)
     = [(None, worker_notice cpus)]
  /\ network_free (events_since w (log None (worker_notice cpus) w)) = true.
Proof.
  intros Hrows.
  assert (events_since w (log None (worker_notice cpus) w)
          = [(None, worker_notice cpus)]) as Hev
    by (by apply events_since_app).
  split; [|by rewrite Hev].
  unfold process_building_time_series, executor_map, data_rows, iterrows.
  rewrite Hrows. cbv zeta. simpl map. simpl length.
  rewrite run_schedule_nil. reflexivity.
Qed.

Lemma empty_row_set_witness :
  process_building_time_series Toy.offline 8 [0; 1; 0]%nat
    (Toy.processor "DE" "All" "SmallOffice") (mkDF None ["bldg_id"] [])
    Toy.data_dir Toy.disk
  = (Ok ([], []), log None (worker_notice 8) Toy.disk).
Proof.
  apply (empty_row_set Toy.offline 8 [0; 1; 0]%nat
           (Toy.processor "DE" "All" "SmallOffice") (mkDF None ["bldg_id"] [])
           Toy.data_dir Toy.disk).
  reflexivity.
Defined.

(** ** Time series: order and length of the output *)

Lemma is_dir_dirs (w w' : World) (p : Path) :
  dirs w' = dirs w -> is_dir w' p = is_dir w p.
Proof. unfold is_dir. by intros ->. Qed.

Lemma pbts_shape (net : Remote) (cpus : nat) (sched : list nat)
    (self : ComStockProcessor) (df : DataFrame) (d : Path) (w w' : World)
    (v : list Path * list string) :
  process_building_time_series net cpus sched self df d w = (Ok v, w') ->
  aligned self d df v.
Proof.
  intros Hrun.
  destruct (pbts_ok net (fun _ => True)
              (fun i r => forall row, data_rows df !! i = Some row ->
                 forall v, r = Ok v ->
                   exists c, row !! "bldg_id" = Some c
                             /\ v = (target self d c, str c))
              cpus sched self df d w I) as (_ & rs & Hlen & Hpost & Hres).
  { intros i row Hrow. eapply wp_mono; [|apply download_task_shape].
    simpl. intros r Hr row' Hrow'. by simplify_eq. }
  rewrite Hrun in Hres. simpl in Hres.
  destruct (collect rs) as [results|] eqn:Hc; [|done].
  injection Hres as ->. by eapply collect_aligned.
Qed.

(** With both fields in every row and a destination directory that exists,
    no task can fail. *)
Lemma download_task_total (net : Remote) (t : Tid) (self : ComStockProcessor)
    (d : Path) (w0 : World) (row : gmap string Cell) (c st : Cell) :
  row !! "bldg_id" = Some c -> row !! "in.state" = Some st ->
  is_dir w0 d = true -> is_dir w0 (target self d c) = false ->
  wp net (fun w => dirs w = dirs w0) t (download_task self d row)
    (fun r => r = Ok (target self d c, str c)).
Proof.
  intros Hc Hs Hd Hp. rewrite (download_task_unfold _ _ _ _ Hc). simpl.
  intros w Hw. split; [done|]. destruct (exists_ w (target self d c)); [done|].
  unfold getitem. rewrite Hs. simpl. intros w1 Hw1. split; [done|].
  destruct (status_code _ =? 200); simpl.
  - intros w2 Hw2. rewrite !(is_dir_dirs w0 w2) by done.
    rewrite parent_target, Hp, Hd. simpl.
    split; [done|]. intros w3 Hw3. by split.
  - intros w2 Hw2. by split.
Qed.

(** C4: for N input rows the call returns, whatever the schedule, a path
    list and an id list of length N whose i-th entries come from the i-th
    row; and it does return, under every schedule, when each row has both
    fields and the destination is an existing directory holding no
    directory under a target name. *)
Theorem time_series_order_preserved (net : Remote) (cpus : nat)
    (sched : list nat) (self : ComStockProcessor) (df : DataFrame) (d : Path)
    (w : World) :
  (forall v w',
     process_building_time_series net cpus sched self df d w = (Ok v, w') ->
     aligned self d df v)
  /\ ((forall row, row ∈ data_rows df ->
         is_Some (row !! "bldg_id") /\ is_Some (row !! "in.state")) ->
      is_dir w d = true ->
      (forall row c, row ∈ data_rows df -> row !! "bldg_id" = Some c ->
         is_dir w (target self d c) = false) ->
      exists v w',
        process_building_time_series net cpus sched self df d w = (Ok v, w')
        /\ aligned self d df v).
Proof.
  split; [intros v w'; apply pbts_shape|].
  intros Hfields Hd Htargets.
  destruct (pbts_ok net (fun w' => dirs w' = dirs w)
              (fun i r => exists v, r = Ok v) cpus sched self df d w)
    as (_ & rs & Hlen & Hpost & Hres).
  { unfold pool_start. by destruct (submit_all_spec (length (df_rows df))
      (log None (worker_notice cpus) w)) as (_ & -> & _). }
  { intros i row Hrow. apply list_elem_of_lookup_2 in Hrow.
    destruct (Hfields row Hrow) as [[c Hc] [st Hs]].
    eapply wp_mono; [|by eapply download_task_total; eauto].
    simpl. intros r ->. eauto. }
  destruct (collect_total rs Hpost) as [results Hc].
  rewrite Hc in Hres.
  destruct (process_building_time_series net cpus sched self df d w)
    as [r w'] eqn:Hrun. simpl in Hres. subst r.
  eexists _, w'. split; [done|]. by eapply pbts_shape.
Qed.

(** ** Time series: tasks under interference *)

(** Nothing on the disk has changed since [w0]. *)
Definition frozen (w0 w : World) : Prop :=
  files w = files w0 /\ dirs w = dirs w0.

Lemma frozen_exists (w0 w : World) (p : Path) :
  frozen w0 w -> exists_ w p = exists_ w0 p.
Proof. intros [Hf Hd]. apply exists_congr; [done|by rewrite Hf]. Qed.

Lemma frozen_log (w0 w : World) (t : Tid) (ev : Event) :
  frozen w0 w -> frozen w0 (log t ev w).
Proof. done. Qed.

(** A task whose download cannot succeed leaves the disk alone; it returns
    its pair unless it needs a state the row does not have. *)
Lemma download_task_frozen (net : Remote) (t : Tid) (self : ComStockProcessor)
    (d : Path) (w0 : World) (row : gmap string Cell) (c : Cell) :
  row !! "bldg_id" = Some c ->
  (forall st, row !! "in.state" = Some st ->
     exists_ w0 (target self d c) = false ->
     status_code (net (series_link self st c)) <> 200) ->
  wp net (frozen w0) t (download_task self d row)
    (fun r => r = if exists_ w0 (target self d c) then Ok (target self d c, str c)
                  else match row !! "in.state" with
                       | Some _ => Ok (target self d c, str c)
                       | None => Raise (KeyError "in.state")
                       end).
Proof.
  intros Hc Hst. rewrite (download_task_unfold _ _ _ _ Hc). simpl.
  intros w Hw. split; [done|]. rewrite (frozen_exists w0 w) by done.
  destruct (exists_ w0 (target self d c)) eqn:He; [done|].
  unfold getitem. destruct (row !! "in.state") as [st|] eqn:Hs; simpl; [|done].
  intros w1 Hw1. split; [by apply frozen_log|].
  specialize (Hst st eq_refl eq_refl).
  destruct (Z.eqb_spec (status_code (net (series_link self st c))) 200) as [E|_];
    [done|].
  simpl. intros w2 Hw2. split; [by apply frozen_log|done].
Qed.

(** A task whose file is there does not touch the world at all. *)
Lemma download_task_cached (net : Remote) (t : Tid) (self : ComStockProcessor)
    (d : Path) (w0 : World) (row : gmap string Cell) (c : Cell) :
  row !! "bldg_id" = Some c ->
  exists_ w0 (target self d c) = true ->
  wp net (fun w => w = w0) t (download_task self d row)
    (fun r => r = Ok (target self d c, str c)).
Proof.
  intros Hc He. rewrite (download_task_unfold _ _ _ _ Hc). simpl.
  intros w ->. split; [done|]. by rewrite He.
Qed.

(** Files that were there at [w1] are kept as they were, and the tasks in
    [quiet] have left no event. *)
Definition undisturbed (w1 : World) (quiet : nat -> Prop) (w : World) : Prop :=
  grows w1 w
  /\ (forall q, exists_ w1 q = true -> files w !! q = files w1 !! q)
  /\ exists new, trace w = new ++ trace w1
       /\ forall i ev, (Some i, ev) ∈ new -> ~ quiet i.

Lemma undisturbed_log (w1 : World) (quiet : nat -> Prop) (w : World) (i : nat)
    (ev : Event) :
  ~ quiet i -> undisturbed w1 quiet w -> undisturbed w1 quiet (log (Some i) ev w).
Proof.
  intros Hq (Hg & Hf & new & Ht & Hn). split; [done|]. split; [done|].
  exists ((Some i, ev) :: new). split; [by simpl; rewrite Ht|].
  intros j ev' [[= -> ->]|Hin]%elem_of_cons; eauto.
Qed.

Lemma undisturbed_set_file (w1 : World) (quiet : nat -> Prop) (w : World)
    (p : Path) (data : string) :
  exists_ w1 p = false ->
  undisturbed w1 quiet w -> undisturbed w1 quiet (set_file p data w).
Proof.
  intros Hp (Hg & Hf & Hn). split; [|split; [|done]].
  - eapply grows_trans; [done|apply grows_set_file].
  - intros q Hq. rewrite files_set_file, lookup_insert_ne; [by apply Hf|].
    intros ->. congruence.
Qed.

Lemma download_task_undisturbed (net : Remote) (i : nat)
    (self : ComStockProcessor) (d : Path) (w1 : World) (quiet : nat -> Prop)
    (row : gmap string Cell) :
  (quiet i -> exists c, row !! "bldg_id" = Some c
                /\ exists_ w1 (target self d c) = true) ->
  wp net (undisturbed w1 quiet) (Some i) (download_task self d row)
    (fun _ => True).
Proof.
  intros Hq. destruct (row !! "bldg_id") as [c|] eqn:Hc.
  2:{ by rewrite download_task_no_id. }
  rewrite (download_task_unfold _ _ _ _ Hc). simpl.
  intros w Hw. split; [done|].
  destruct (exists_ w (target self d c)) eqn:He; [done|].
  assert (exists_ w1 (target self d c) = false) as He1.
  { destruct (exists_ w1 (target self d c)) eqn:E; [|done].
    destruct Hw as (Hg & _). by rewrite (grows_exists _ _ _ Hg E) in He. }
  assert (~ quiet i) as Hnq.
  { intros (c' & Hc' & E)%Hq. congruence. }
  unfold getitem. destruct (row !! "in.state") as [st|]; simpl; [|done].
  intros w2 Hw2. split; [by apply undisturbed_log|].
  destruct (status_code _ =? 200); simpl.
  - intros w3 Hw3.
    destruct (is_dir w3 (target self d c)); simpl; [done|].
    destruct (is_dir w3 (parent (target self d c))); simpl.
    + split; [by apply undisturbed_log, undisturbed_set_file|].
      intros w4 Hw4. split; [by apply undisturbed_log, undisturbed_set_file|done].
    + by destruct (is_file w3 (parent (target self d c))).
  - intros w3 Hw3. split; [by apply undisturbed_log|done].
Qed.

(** ** Time series: failed downloads *)

Lemma pool_start_frozen (cpus n : nat) (w : World) :
  frozen w (pool_start cpus n w).
Proof.
  unfold frozen, pool_start.
  by destruct (submit_all_spec n (log None (worker_notice cpus) w)) as (-> & -> & _).
Qed.

(** When no download of the fan-out can succeed, the call still returns the
    aligned lists, under every schedule, and the disk is as before. *)
Lemma pbts_all_failed (net : Remote) (cpus : nat) (sched : list nat)
    (self : ComStockProcessor) (df : DataFrame) (d : Path) (w : World) :
  (forall row, row ∈ data_rows df ->
     exists c st, row !! "bldg_id" = Some c /\ row !! "in.state" = Some st
       /\ exists_ w (target self d c) = false
       /\ status_code (net (series_link self st c)) <> 200) ->
  exists v w',
    process_building_time_series net cpus sched self df d w = (Ok v, w')
    /\ aligned self d df v /\ files w' = files w /\ dirs w' = dirs w.
Proof.
  intros Hrows.
  destruct (pbts_ok net (frozen w) (fun i r => exists v, r = Ok v)
              cpus sched self df d w) as (Hfr & rs & Hlen & Hpost & Hres).
  { apply pool_start_frozen. }
  { intros i row Hrow. apply list_elem_of_lookup_2 in Hrow.
    destruct (Hrows row Hrow) as (c & st & Hc & Hs & He & Hst).
    eapply wp_mono; [|apply (download_task_frozen net (Some i) self d w row c Hc)].
    - simpl. rewrite He, Hs. intros r ->. eauto.
    - intros st' Hs' _. congruence. }
  destruct (collect_total rs Hpost) as [results Hc]. rewrite Hc in Hres.
  destruct (process_building_time_series net cpus sched self df d w)
    as [r w'] eqn:Hrun. simpl in Hres, Hfr. subst r. destruct Hfr as [Hf Hd].
  eexists _, w'. split; [done|]. split; [by eapply pbts_shape|done].
Qed.

(** C3: a task whose download gets a non-success status prints the failure
    notice, writes nothing, and returns its target path and building id, the
    very pair every returning run of the task returns; the pair sits at the
    row's position in the output lists; and a fan-out in which every
    download fails returns its lists all the same.  The metadata path uses
    the same [download_file], which on such a status writes no file and
    hands nothing back. *)
Theorem failed_download_still_reported (net : Remote) (t : Tid)
    (self : ComStockProcessor) (d : Path) (row : gmap string Cell) (c st : Cell)
    (w : World) :
  row !! "bldg_id" = Some c -> row !! "in.state" = Some st ->
  exists_ w (target self d c) = false ->
  status_code (net (series_link self st c)) <> 200 ->
  interp net t (download_task self d row) w
  = (Ok (target self d c, str c),
     log t (failure_notice (series_link self st c))
       (log t (EvGet (series_link self st c)) w))
  /\ (forall net' w0 v w',
        interp net' t (download_task self d row) w0 = (Ok v, w') ->
        v = (target self d c, str c))
  /\ (forall cpus sched df i v w',
        data_rows df !! i = Some row ->
        process_building_time_series net cpus sched self df d w = (Ok v, w') ->
        v.1 !! i = Some (target self d c) /\ v.2 !! i = Some (str c))
  /\ (forall cpus sched df,
        (forall row', row' ∈ data_rows df ->
           exists c' st', row' !! "bldg_id" = Some c'
             /\ row' !! "in.state" = Some st'
             /\ exists_ w (target self d c') = false
             /\ status_code (net (series_link self st' c')) <> 200) ->
        exists v w',
          process_building_time_series net cpus sched self df d w = (Ok v, w')
          /\ aligned self d df v /\ files w' = files w)
  /\ (forall p,
        interp net t (download_file (series_link self st c) p) w
        = (Ok tt, log t (failure_notice (series_link self st c))
                    (log t (EvGet (series_link self st c)) w))
        /\ files (interp net t (download_file (series_link self st c) p) w).2
           = files w).
Proof.
  intros Hc Hs He Hst. split; [by apply download_task_miss_failed|].
  split; [|split; [|split]].
  - intros net' w0 v w' Hrun.
    destruct (wp_interp net' (fun _ => True) t _ _ w0 I
                (download_task_shape net' t self d row)) as [_ Hv].
    rewrite Hrun in Hv. destruct (Hv v eq_refl) as (c' & Hc' & ->). congruence.
  - intros cpus sched df i v w' Hrow Hrun.
    destruct (pbts_shape _ _ _ _ _ _ _ _ _ Hrun) as (_ & _ & Hal).
    destruct (Hal i row Hrow) as (c' & Hc' & ? & ?). by simplify_eq.
  - intros cpus sched df Hall.
    destruct (pbts_all_failed net cpus sched self df d w Hall)
      as (v & w' & ? & ? & ? & _). eauto.
  - intros p. by rewrite download_file_failed.
Qed.

Lemma failed_download_still_reported_witness :
  let self := Toy.processor "DE" "All" "All" in
  let row : gmap string Cell :=
    list_to_map [("bldg_id", CInt 102); ("in.state", CStr "DE")] in
  interp Toy.remote (Some 0%nat) (download_task self Toy.data_dir row) Toy.disk
  = (Ok (["data"; "bldg_id-102-upgrade-0.parquet"], "102"),
     log (Some 0%nat) (failure_notice (series_link self (CStr "DE") (CInt 102)))
       (log (Some 0%nat) (EvGet (series_link self (CStr "DE") (CInt 102)))
          Toy.disk)).
Proof.
  intros self row.
  apply (failed_download_still_reported Toy.remote (Some 0%nat) self
           Toy.data_dir row (CInt 102) (CStr "DE") Toy.disk);
    vm_compute; first [reflexivity | discriminate].
Defined.

Lemma frozen_grows (w0 w : World) : frozen w0 w -> grows w0 w.
Proof.
  intros [Hf Hd]. split; intros p; unfold is_dir, is_file; by rewrite ?Hf, ?Hd.
Qed.

(** ** Time series: downloads that land

    [ensures t p post w]: from world [w] on, whatever the other threads add
    to the disk in between, the result of [p] satisfies [post] in the world
    where [p] ends. *)

Section Ensures.
Context {A : Type}.
Variable net : Remote.

Fixpoint ensures (t : Tid) (p : Prog A) (post : Result A -> World -> Prop)
    (w : World) : Prop :=
  match p with
  | Ret a => post (Ok a) w
  | Throw e => post (Raise e) w
  | Vis op k =>
      forall w', grows w w' ->
        match (perform net t op w').1 with
        | Ok x => ensures t (k x) post (perform net t op w').2
        | Raise e => post (Raise e) (perform net t op w').2
        end
  end.

Definition stable (post : Result A -> World -> Prop) : Prop :=
  forall r w w', post r w -> grows w w' -> post r w'.

Lemma ensures_stable (t : Tid) (p : Prog A) (post : Result A -> World -> Prop)
    (w w' : World) :
  stable post -> ensures t p post w -> grows w w' -> ensures t p post w'.
Proof.
  intros Hst. destruct p as [a | e | X op k]; simpl; eauto.
  intros Hp Hg w'' Hg'. apply Hp. by eapply grows_trans.
Qed.

Lemma step_grows (t : Tid) (p : Prog A) (w : World) :
  grows w (step net t p w).2.
Proof.
  destruct p as [a | e | X op k]; simpl; try apply grows_refl.
  pose proof (perform_grows net t op w) as Hg.
  by destruct (perform net t op w) as [[x | e] w'].
Qed.

Lemma interp_grows (t : Tid) (p : Prog A) (w : World) :
  grows w (interp net t p w).2.
Proof.
  revert w. induction p as [a | e | X op k IH]; intros w; simpl;
    try apply grows_refl.
  pose proof (perform_grows net t op w) as Hg.
  destruct (perform net t op w) as [[x | e] w']; simpl in *; [|done].
  eapply grows_trans; [done|apply IH].
Qed.

Lemma ensures_step (t : Tid) (p : Prog A) (post : Result A -> World -> Prop)
    (w : World) :
  ensures t p post w ->
  ensures t (step net t p w).1 post (step net t p w).2.
Proof.
  destruct p as [a | e | X op k]; simpl; try done.
  intros Hp. specialize (Hp w (grows_refl w)).
  by destruct (perform net t op w) as [[x | e] w'].
Qed.

Lemma ensures_interp (t : Tid) (p : Prog A) (post : Result A -> World -> Prop)
    (w : World) :
  ensures t p post w -> post (interp net t p w).1 (interp net t p w).2.
Proof.
  revert w. induction p as [a | e | X op k IH]; intros w; simpl; try done.
  intros Hp. specialize (Hp w (grows_refl w)).
  destruct (perform net t op w) as [[x | e] w']; simpl in *; [by apply IH|done].
Qed.

Variable max_workers : nat.
Variable post : nat -> Result A -> World -> Prop.
Hypothesis post_stable : forall i, stable (post i).

Definition tasks_ensure (ts : list (Task A)) (w : World) : Prop :=
  forall i t, ts !! i = Some t -> ensures (Some i) (code t) (post i) w.

Lemma pool_step_grows (i : nat) (st : list (Task A) * World) :
  grows st.2 (pool_step net max_workers i st).2.
Proof.
  unfold pool_step. destruct (st.1 !! i) as [t|]; [|apply grows_refl].
  destruct (finished (code t)); [apply grows_refl|].
  destruct (may_run max_workers i st.1 t); [|apply grows_refl].
  apply step_grows.
Qed.

Lemma pool_step_ensures (i : nat) (st : list (Task A) * World) :
  tasks_ensure st.1 st.2 ->
  tasks_ensure (pool_step net max_workers i st).1
    (pool_step net max_workers i st).2.
Proof.
  intros Hts. pose proof (pool_step_grows i st) as Hg. revert Hg.
  unfold pool_step. destruct (st.1 !! i) as [t|] eqn:Hi; [|done].
  destruct (finished (code t)); [done|].
  destruct (may_run max_workers i st.1 t); [|done].
  simpl. intros Hg j tj Hj. destruct (decide (i = j)) as [<-|Hne].
  - rewrite list_lookup_insert_eq in Hj by (by eapply lookup_lt_Some).
    injection Hj as <-. simpl. by apply ensures_step, Hts.
  - rewrite list_lookup_insert_ne in Hj by done.
    eapply ensures_stable; [apply post_stable|by apply Hts|done].
Qed.

Lemma run_schedule_ensures (sched : list nat) (st : list (Task A) * World) :
  tasks_ensure st.1 st.2 ->
  tasks_ensure (run_schedule net max_workers sched st).1
    (run_schedule net max_workers sched st).2.
Proof.
  revert st. induction sched as [|i sched IH]; intros st Hts; [done|].
  simpl. by apply IH, pool_step_ensures.
Qed.

Lemma join_grows (i : nat) (ts : list (Task A)) (w : World) :
  grows w (join net i ts w).2.
Proof.
  revert i w. induction ts as [|t ts IH]; intros i w; simpl;
    [apply grows_refl|].
  eapply grows_trans; [apply interp_grows|apply IH].
Qed.

Lemma join_ensures (i : nat) (ts : list (Task A)) (w : World) :
  (forall j t, ts !! j = Some t ->
     ensures (Some (i + j)%nat) (code t) (post (i + j)%nat) w) ->
  forall j r, (join net i ts w).1 !! j = Some r ->
    post (i + j)%nat r (join net i ts w).2.
Proof.
  revert i w. induction ts as [|t ts IH]; intros i w Hts j r; simpl; [done|].
  pose proof (Hts 0%nat t eq_refl) as Ht. rewrite Nat.add_0_r in Ht.
  pose proof (ensures_interp _ _ _ _ Ht) as Hr.
  destruct j as [|j]; simpl.
  - intros [= <-]. rewrite Nat.add_0_r.
    eapply post_stable; [exact Hr|apply join_grows].
  - intros Hj. replace (i + S j)%nat with (S i + j)%nat by lia.
    apply IH; [|done]. intros j' tj Hj'.
    replace (S i + j')%nat with (i + S j')%nat by lia.
    eapply ensures_stable; [apply post_stable|by apply Hts|apply interp_grows].
Qed.

Lemma executor_map_ensures {B : Type} (sched : list nat) (fn : B -> Prog A)
    (items : list B) (w : World) :
  (forall i x, items !! i = Some x ->
     ensures (Some i) (fn x) (post i) (submit_all (length items) w)) ->
  exists rs,
    (executor_map net max_workers sched fn items w).1 = collect rs
    /\ forall i r, rs !! i = Some r ->
         post i r (executor_map net max_workers sched fn items w).2.
Proof.
  intros Hfn. unfold executor_map.
  set (ts := map (fun x => mkTask false (fn x)) items).
  set (st := run_schedule net max_workers sched (ts, submit_all (length items) w)).
  assert (tasks_ensure st.1 st.2) as Hts.
  { apply run_schedule_ensures. simpl. intros i t Hi. unfold ts in Hi.
    rewrite list_lookup_fmap in Hi. destruct (items !! i) as [x|] eqn:Hx; [|done].
    injection Hi as <-. by apply Hfn. }
  eexists. split; [done|]. simpl. intros i r Hi.
  by apply (join_ensures 0 st.1 st.2 Hts i r).
Qed.

End Ensures.

Lemma submit_all_grows (n : nat) (w : World) : grows w (submit_all n w).
Proof.
  apply frozen_grows. by destruct (submit_all_spec n w) as (? & ? & _).
Qed.

(** A task whose request is answered 200 ends with its file in place. *)
Lemma download_task_lands (net : Remote) (t : Tid) (self : ComStockProcessor)
    (d : Path) (row : gmap string Cell) (w : World) :
  (forall c st, row !! "bldg_id" = Some c -> row !! "in.state" = Some st ->
     status_code (net (series_link self st c)) = 200) ->
  ensures net t (download_task self d row)
    (fun r w' => forall v, r = Ok v -> exists_ w' v.1 = true) w.
Proof.
  intros Hst. destruct (row !! "bldg_id") as [c|] eqn:Hc.
  2:{ by rewrite download_task_no_id. }
  rewrite (download_task_unfold _ _ _ _ Hc). simpl. intros w1 _.
  destruct (exists_ w1 (target self d c)) eqn:He.
  { by intros v [= <-]. }
  unfold getitem. destruct (row !! "in.state") as [st|] eqn:Hs; simpl; [|done].
  intros w2 _. rewrite (Hst c st eq_refl eq_refl). simpl. intros w3 _.
  destruct (is_dir w3 (target self d c)); simpl; [done|].
  destruct (is_dir w3 (parent (target self d c))); simpl.
  - intros w4 _ v [= <-]. simpl. apply is_file_exists.
    rewrite is_file_log, is_file_set_file.
    by rewrite (bool_decide_eq_true_2 (target self d c = target self d c)).
  - by destruct (is_file w3 (parent (target self d c))).
Qed.

(** After a call that returned and whose requests were all answered 200,
    every target file is on the disk. *)
Lemma pbts_downloads_land (net : Remote) (cpus : nat) (sched : list nat)
    (self : ComStockProcessor) (df : DataFrame) (d : Path) (w w1 : World)
    (v : list Path * list string) :
  process_building_time_series net cpus sched self df d w = (Ok v, w1) ->
  (forall row c st, row ∈ data_rows df ->
     row !! "bldg_id" = Some c -> row !! "in.state" = Some st ->
     status_code (net (series_link self st c)) = 200) ->
  forall row c, row ∈ data_rows df -> row !! "bldg_id" = Some c ->
    exists_ w1 (target self d c) = true.
Proof.
  intros Hrun Hst row c Hin Hc.
  pose proof (pbts_shape _ _ _ _ _ _ _ _ _ Hrun) as (Hl1 & _ & Hal).
  destruct (list_elem_of_lookup_1 _ _ Hin) as [i Hi].
  destruct (Hal i row Hi) as (c' & Hc' & Hp & _). simplify_eq.
  revert Hrun. unfold process_building_time_series. cbv zeta.
  change (interp net None (trigger (OPrint _)) w).2
    with (log None (worker_notice cpus) w).
  destruct (executor_map_ensures net (Nat.max 1 (cpus - 1))
              (fun _ r w' => forall v, r = Ok v -> exists_ w' v.1 = true)
              (fun _ r w' w'' H Hg v' E => grows_exists _ _ _ Hg (H v' E))
              sched (download_task self d) (data_rows df)
              (log None (worker_notice cpus) w)) as (rs & Hres & Hpost).
  { intros j row' Hrow'. apply download_task_lands.
    intros c' st'. apply Hst. by eapply list_elem_of_lookup_2. }
  set (r := executor_map net _ sched _ _ _) in *. rewrite Hres.
  destruct (collect rs) as [results|] eqn:Hcol; [|done].
  intros Hrun.
  assert (v = (map fst results, map snd results) /\ w1 = r.2) as [-> ->].
  { destruct results; by injection Hrun as <- <-. }
  simpl in Hp. apply collect_Ok_inv in Hcol. subst rs.
  rewrite list_lookup_fmap in Hp.
  destruct (results !! i) as [pi|] eqn:Hpi; [|done]. injection Hp as <-.
  apply (Hpost i (Ok pi)); [|done]. by rewrite list_lookup_fmap, Hpi.
Qed.

(** ** Time series: cached files *)

Lemma elem_of_rev {A : Type} (x : A) (l : list A) : x ∈ rev l <-> x ∈ l.
Proof. rewrite !list_elem_of_In. symmetry. apply in_rev. Qed.

Lemma pool_start_trace (cpus n : nat) (w : World) :
  trace (pool_start cpus n w)
  = (rev (map (fun i => (None, EvSubmit i)) (seq 0 n))
     ++ [(None, worker_notice cpus)]) ++ trace w.
Proof.
  unfold pool_start.
  destruct (submit_all_spec n (log None (worker_notice cpus) w)) as (_ & _ & ->).
  by rewrite <- app_assoc.
Qed.

Lemma pool_start_events (cpus n : nat) (w : World) (e : Tid * Event) :
  e ∈ events_since w (pool_start cpus n w) ->
  e = (None, worker_notice cpus) \/ exists i, e = (None, EvSubmit i).
Proof.
  rewrite (events_since_app _ _ _ (pool_start_trace cpus n w)).
  rewrite elem_of_app, elem_of_rev, list_elem_of_fmap, list_elem_of_singleton.
  intros [(i & -> & _) | ->]; eauto.
Qed.

Lemma pool_start_quiet (cpus n : nat) (w : World) :
  network_free (events_since w (pool_start cpus n w)) = true
  /\ write_free (events_since w (pool_start cpus n w)) = true.
Proof.
  unfold network_free, write_free. rewrite !forallb_forall.
  split; intros e He%list_elem_of_In%pool_start_events;
    by destruct He as [->|[i ->]].
Qed.

Lemma pool_start_undisturbed (cpus n : nat) (w : World) (quiet : nat -> Prop) :
  undisturbed w quiet (pool_start cpus n w).
Proof.
  pose proof (pool_start_frozen cpus n w) as Hfr.
  split; [by apply frozen_grows|]. split.
  - intros q _. destruct Hfr as [-> _]. done.
  - eexists. split; [apply pool_start_trace|].
    intros i ev. rewrite elem_of_app, elem_of_rev, list_elem_of_fmap,
      list_elem_of_singleton.
    intros [(j & [=] & _)|[=]].
Qed.

(** When every file is there, the fan-out changes nothing and returns. *)
Lemma pbts_all_cached (net : Remote) (cpus : nat) (sched : list nat)
    (self : ComStockProcessor) (df : DataFrame) (d : Path) (w : World) :
  (forall row, row ∈ data_rows df ->
     exists c, row !! "bldg_id" = Some c
       /\ exists_ w (target self d c) = true) ->
  exists v,
    process_building_time_series net cpus sched self df d w
    = (Ok v, pool_start cpus (length (df_rows df)) w)
    /\ aligned self d df v.
Proof.
  intros Hrows.
  destruct (pbts_ok net (fun w' => w' = pool_start cpus (length (df_rows df)) w)
              (fun i r => exists v, r = Ok v) cpus sched self df d w eq_refl)
    as (Hw & rs & Hlen & Hpost & Hres).
  { intros i row Hrow. apply list_elem_of_lookup_2 in Hrow.
    destruct (Hrows row Hrow) as (c & Hc & He).
    eapply wp_mono; [|apply (download_task_cached net (Some i) self d _ row c Hc)].
    - simpl. intros r ->. eauto.
    - by rewrite (frozen_exists w) by apply pool_start_frozen. }
  destruct (collect_total rs Hpost) as [results Hc]. rewrite Hc in Hres.
  destruct (process_building_time_series net cpus sched self df d w)
    as [r w'] eqn:Hrun. simpl in Hres, Hw. subst r w'.
  eexists. split; [done|]. by eapply pbts_shape.
Qed.

(** The second call did nothing but announce itself and submit its tasks. *)
Definition silent_rerun (cpus : nat) (df : DataFrame) (w1 : World)
    (v1 : list Path * list string)
    (run2 : Result (list Path * list string) * World) : Prop :=
  run2 = (Ok v1, pool_start cpus (length (df_rows df)) w1)
  /\ files run2.2 = files w1 /\ dirs run2.2 = dirs w1
  /\ network_free (events_since w1 run2.2) = true
  /\ write_free (events_since w1 run2.2) = true.

(** C8: two calls over the same rows and destination return the same lists
    whenever both return; in the second call a task whose file is already
    there leaves no event behind (no request, no write), under every
    schedule, and that file is kept as it was; when every file is there the
    second call returns those lists and is a no-op on the disk and on the
    network; and every file is there after a first run whose requests were
    all answered 200. *)
Theorem time_series_second_call (net net' : Remote) (cpus : nat)
    (sched sched' : list nat) (self : ComStockProcessor) (df : DataFrame)
    (d : Path) (w w1 : World) (v1 : list Path * list string) :
  process_building_time_series net cpus sched self df d w = (Ok v1, w1) ->
  let run2 := process_building_time_series net' cpus sched' self df d w1 in
  (forall v2 w2, run2 = (Ok v2, w2) -> v2 = v1)
  /\ (forall i row c,
        data_rows df !! i = Some row -> row !! "bldg_id" = Some c ->
        exists_ w1 (target self d c) = true ->
        files run2.2 !! target self d c = files w1 !! target self d c
        /\ forall ev, (Some i, ev) ∉ events_since w1 run2.2)
  /\ ((forall row c, row ∈ data_rows df -> row !! "bldg_id" = Some c ->
         exists_ w1 (target self d c) = true) ->
      silent_rerun cpus df w1 v1 run2)
  /\ ((forall row c st, row ∈ data_rows df ->
         row !! "bldg_id" = Some c -> row !! "in.state" = Some st ->
         status_code (net (series_link self st c)) = 200) ->
      silent_rerun cpus df w1 v1 run2).
Proof.
  intros Hrun1 run2. pose proof (pbts_shape _ _ _ _ _ _ _ _ _ Hrun1) as Hal1.
  assert (forall v2 w2, run2 = (Ok v2, w2) -> v2 = v1) as Huniq.
  { intros v2 w2 Hrun2. eapply aligned_unique; [|exact Hal1].
    by eapply pbts_shape. }
  assert ((forall row c, row ∈ data_rows df -> row !! "bldg_id" = Some c ->
             exists_ w1 (target self d c) = true) ->
          silent_rerun cpus df w1 v1 run2) as Hsilent.
  { intros Hall.
    destruct (pbts_all_cached net' cpus sched' self df d w1) as (v2 & Hrun2 & _).
    { intros row Hrow. destruct (list_elem_of_lookup_1 _ _ Hrow) as [i Hi].
      destruct Hal1 as (_ & _ & Hal1). destruct (Hal1 i row Hi) as (c & Hc & _).
      exists c. split; [done|]. by eapply Hall. }
    fold run2 in Hrun2. rewrite (Huniq v2 _ Hrun2) in Hrun2.
    unfold silent_rerun. rewrite Hrun2. simpl.
    destruct (pool_start_frozen cpus (length (df_rows df)) w1) as [Hf Hd].
    destruct (pool_start_quiet cpus (length (df_rows df)) w1) as [Hn Hw].
    done. }
  split; [done|]. split; [|split; [done|]].
  - intros i row c Hrow Hc He.
    set (quiet := fun j => exists row' c', data_rows df !! j = Some row'
                   /\ row' !! "bldg_id" = Some c'
                   /\ exists_ w1 (target self d c') = true).
    destruct (pbts_ok net' (undisturbed w1 quiet) (fun _ _ => True)
                cpus sched' self df d w1) as ((_ & Hf & new & Ht & Hn) & _).
    { apply pool_start_undisturbed. }
    { intros j row' Hrow'. apply download_task_undisturbed.
      intros (r & c' & Hr & Hc' & He'). simplify_eq. eauto. }
    fold run2 in Hf, Ht. split; [by apply Hf|].
    rewrite (events_since_app _ _ _ Ht). intros ev Hin.
    apply (Hn i ev Hin). by exists row, c.
  - intros Hst. apply Hsilent. by eapply pbts_downloads_land.
Qed.

Lemma time_series_second_call_witness :
  let self := Toy.processor "DE" "All" "All" in
  let run1 := process_building_time_series Toy.remote 4 [0; 0; 0]%nat self
                Toy.one_building Toy.data_dir Toy.disk in
  let run2 := process_building_time_series Toy.offline 4 [0]%nat self
                Toy.one_building Toy.data_dir run1.2 in
  run1.1 = Ok ([["data"; "bldg_id-101-upgrade-0.parquet"]], ["101"])
  /\ run2.1 = run1.1
  /\ network_free (events_since run1.2 run2.2) = true.
Proof.
  intros self run1 run2. split; [vm_compute; reflexivity|].
  destruct (time_series_second_call Toy.remote Toy.offline 4 [0; 0; 0]%nat
              [0]%nat self Toy.one_building Toy.data_dir Toy.disk run1.2
              ([["data"; "bldg_id-101-upgrade-0.parquet"]], ["101"])
              ltac:(vm_compute; reflexivity)) as (_ & _ & H3 & _).
  destruct H3 as (H & _ & _ & Hn & _).
  { intros row c Hrow Hc. apply list_elem_of_In in Hrow. vm_compute in Hrow.
    destruct Hrow as [<-|[]]. vm_compute in Hc. injection Hc as <-.
    vm_compute. reflexivity. }
  split; [|exact Hn]. fold run2 in H. rewrite H. vm_compute. reflexivity.
Defined.

Lemma time_series_order_preserved_witness :
  let self := Toy.processor "DE" "All" "All" in
  exists v w',
    process_building_time_series Toy.remote 3 [1; 0; 1; 1; 0]%nat self
      Toy.two_buildings Toy.data_dir Toy.disk = (Ok v, w')
    /\ aligned self Toy.data_dir Toy.two_buildings v.
Proof.
  intros self.
  apply (time_series_order_preserved Toy.remote 3 [1; 0; 1; 1; 0]%nat self
           Toy.two_buildings Toy.data_dir Toy.disk).
  - intros row Hrow. apply list_elem_of_In in Hrow. vm_compute in Hrow.
    destruct Hrow as [<-|[<-|[]]]; split; vm_compute; eauto.
  - vm_compute. reflexivity.
  - intros row c Hrow Hc. apply list_elem_of_In in Hrow. vm_compute in Hrow.
    destruct Hrow as [<-|[<-|[]]]; vm_compute in Hc; injection Hc as <-;
      vm_compute; reflexivity.
Defined.

(** ** Time series: what a cached task reads *)

(** C9: a task whose file is there returns its pair from the building id
    alone and leaves the world as it is (no request, hence no URL): the
    state field may as well be absent, and a whole row set without a state
    column goes through when every file is cached.  On a cache miss a row
    without the state field fails with KeyError, before any request, and so
    does the call. *)
Theorem cached_task_reads_id_only (net : Remote) (t : Tid)
    (self : ComStockProcessor) (d : Path) (row : gmap string Cell) (c : Cell)
    (w : World) :
  row !! "bldg_id" = Some c ->
  (exists_ w (target self d c) = true ->
     interp net t (download_task self d row) w
     = (Ok (target self d c, str c), w)
     /\ interp net t (download_task self d (delete "in.state" row)) w
        = (Ok (target self d c, str c), w))
  /\ (exists_ w (target self d c) = false -> row !! "in.state" = None ->
      interp net t (download_task self d row) w
      = (Raise (KeyError "in.state"), w))
  /\ (forall cpus sched df,
        (forall row', row' ∈ data_rows df ->
           exists c', row' !! "bldg_id" = Some c'
             /\ exists_ w (target self d c') = true) ->
        exists v,
          process_building_time_series net cpus sched self df d w
          = (Ok v, pool_start cpus (length (df_rows df)) w)
          /\ aligned self d df v)
  /\ (forall cpus sched df,
        (forall row', row' ∈ data_rows df ->
           is_Some (row' !! "bldg_id") /\ row' !! "in.state" = None) ->
        row ∈ data_rows df ->
        exists_ w (target self d c) = false ->
        (process_building_time_series net cpus sched self df d w).1
        = Raise (KeyError "in.state")).
Proof.
  intros Hc. split; [|split; [|split]].
  - intros He. split; [by apply download_task_hit|].
    apply download_task_hit; [|done]. by rewrite lookup_delete_ne.
  - intros He Hs. by apply (download_task_miss_no_state net t self d row c).
  - intros cpus sched df. apply pbts_all_cached.
  - intros cpus sched df Hrows Hin He.
    destruct (pbts_ok net (frozen w)
                (fun i r => forall row', data_rows df !! i = Some row' ->
                   forall c', row' !! "bldg_id" = Some c' ->
                     r = if exists_ w (target self d c')
                         then Ok (target self d c', str c')
                         else Raise (KeyError "in.state"))
                cpus sched self df d w) as (_ & rs & Hlen & Hpost & Hres).
    { apply pool_start_frozen. }
    { intros i row' Hrow'. pose proof (list_elem_of_lookup_2 _ _ _ Hrow') as Hin'.
      destruct (Hrows row' Hin') as [[c' Hc'] Hs'].
      eapply wp_mono;
        [|apply (download_task_frozen net (Some i) self d w row' c' Hc')].
      - simpl. rewrite Hs'. intros r -> row'' Hrow'' c'' Hc''. by simplify_eq.
      - intros st Hst. congruence. }
    rewrite Hres. rewrite (collect_raise rs (KeyError "in.state")); [done| |].
    + intros i r Hi.
      assert (i < length (data_rows df))%nat as Hlt.
      { rewrite length_data_rows, <- Hlen. by eapply lookup_lt_Some. }
      destruct (lookup_lt_is_Some_2 _ _ Hlt) as [row' Hrow'].
      destruct (Hrows row' (list_elem_of_lookup_2 _ _ _ Hrow')) as [[c' Hc'] _].
      rewrite (Hpost i r Hi row' Hrow' c' Hc').
      destruct (exists_ w (target self d c')); eauto.
    + destruct (list_elem_of_lookup_1 _ _ Hin) as [i Hi].
      assert (i < length rs)%nat as Hlt.
      { rewrite Hlen, <- length_data_rows. by eapply lookup_lt_Some. }
      destruct (lookup_lt_is_Some_2 _ _ Hlt) as [r Hr].
      exists i. rewrite Hr. f_equal.
      rewrite (Hpost i r Hr row Hi c Hc). by rewrite He.
Qed.

Lemma cached_task_reads_id_only_witness :
  let self := Toy.processor "DE" "All" "All" in
  let row : gmap string Cell := list_to_map [("bldg_id", CInt 101)] in
  interp Toy.offline (Some 0%nat) (download_task self Toy.data_dir row)
    Toy.disk_with_101
  = (Ok (["data"; "bldg_id-101-upgrade-0.parquet"], "101"), Toy.disk_with_101)
  /\ interp Toy.offline (Some 0%nat) (download_task self Toy.data_dir row)
       Toy.disk
     = (Raise (KeyError "in.state"), Toy.disk).
Proof.
  intros self row. split.
  - apply (cached_task_reads_id_only Toy.offline (Some 0%nat) self Toy.data_dir
             row (CInt 101) Toy.disk_with_101); vm_compute; reflexivity.
  - apply (cached_task_reads_id_only Toy.offline (Some 0%nat) self Toy.data_dir
             row (CInt 101) Toy.disk); vm_compute; reflexivity.
Defined.

(** * Further properties of the metadata path *)

(** ** What process_metadata leaves alone *)

Lemma pm_project_frame (cd : Codec) (net : Remote) (t : Tid)
    (self : ComStockProcessor) (d : Path) (w : World) :
  dirs (interp net t (pm_project cd self d) w).2 = dirs w
  /\ forall q, q <> output_csv self d ->
       files (interp net t (pm_project cd self d) w).2 !! q = files w !! q.
Proof.
  destruct (warned_files t self w) as [Hwf Hwd].
  destruct (exists_ w (output_csv self d)) eqn:He.
  - rewrite pm_project_cached by done.
    destruct (files w !! output_csv self d) as [data|]; by split.
  - rewrite pm_project_fresh by done.
    destruct (files w !! metadata_parquet d) as [data|]; simpl.
    2:{ split; [done|]. intros q _. by rewrite Hwf. }
    destruct (fresh_frame cd self data) as [df|]; simpl.
    2:{ split; [done|]. intros q _. by rewrite Hwf. }
    destruct (is_dir w d); simpl.
    2:{ split; [done|]. intros q _. by rewrite Hwf. }
    split; [done|]. intros q Hq. rewrite !lookup_insert_ne by done.
    by rewrite Hwf.
Qed.

(** X1: whatever its outcome, [process_metadata] creates no directory and
    changes, removes or adds no file other than the raw metadata file and
    the projection file of the query. *)
Theorem process_metadata_touches_only_cache (cd : Codec) (net : Remote)
    (t : Tid) (self : ComStockProcessor) (d : Path) (w : World) (q : Path) :
  dirs (interp net t (process_metadata cd self d) w).2 = dirs w
  /\ (q <> metadata_parquet d -> q <> output_csv self d ->
      files (interp net t (process_metadata cd self d) w).2 !! q = files w !! q).
Proof.
  rewrite process_metadata_split, interp_bind.
  destruct (pm_fetch_frame net t self d w) as [Hd Hf].
  destruct (interp net t (pm_fetch self d) w) as [[[]|e] w1];
    simpl in Hd, Hf; cbv beta iota.
  - destruct (pm_project_frame cd net t self d w1) as [Hd' Hf'].
    split; [by rewrite Hd', Hd|]. intros H1 H2. by rewrite Hf', Hf.
  - split; [done|]. intros H1 _. by apply Hf.
Qed.

Lemma process_metadata_touches_only_cache_witness :
  files (interp Toy.remote None
           (process_metadata Toy.codec (Toy.processor "DE" "All" "SmallOffice")
              Toy.data_dir) Toy.disk_with_101).2
    !! ["data"; "bldg_id-101-upgrade-0.parquet"]
  = Some "series-101".
Proof.
  destruct (process_metadata_touches_only_cache Toy.codec Toy.remote None
              (Toy.processor "DE" "All" "SmallOffice") Toy.data_dir
              Toy.disk_with_101 ["data"; "bldg_id-101-upgrade-0.parquet"])
    as [_ H].
  rewrite H; [reflexivity | discriminate | discriminate].
Defined.

(** ** Exactly the matching rows *)















(** ** Cache files are trusted as they are *)

(** X4: a raw metadata file that is present but does not decode is never
    fetched again: with no projection cached the call raises the decoding
    error without any request and without touching the disk, so that every
    later call ends the same way. *)
Theorem corrupt_raw_never_refetched (cd : Codec) (net net' : Remote) (t : Tid)
    (self : ComStockProcessor) (d : Path) (w : World) (data : string) :
  files w !! metadata_parquet d = Some data ->
  parquet_decode cd data = None ->
  exists_ w (output_csv self d) = false ->
  let w' := log t (EvRead (metadata_parquet d))
              (warned t self (log t skip_download_notice w)) in
  interp net t (process_metadata cd self d) w = (Raise ArrowInvalid, w')
  /\ files w' = files w
  /\ network_free (events_since w w') = true
  /\ (interp net' t (process_metadata cd self d) w').1 = Raise ArrowInvalid.
Proof.
  intros Hraw Hdec Hout w'.
  assert (forall n w0, files w0 = files w -> dirs w0 = dirs w ->
            interp n t (process_metadata cd self d) w0
            = (Raise ArrowInvalid,
               log t (EvRead (metadata_parquet d))
                 (warned t self (log t skip_download_notice w0)))) as Hrun.
  { intros n w0 Hf Hd. rewrite process_metadata_split, interp_bind.
    rewrite pm_fetch_cached.
    2:{ eapply is_file_exists, lookup_is_file. by rewrite Hf. }
    rewrite pm_project_fresh.
    2:{ rewrite exists_log, <- Hout. by apply exists_congr; [|rewrite Hf]. }
    rewrite files_log, Hf, Hraw. simpl. unfold fresh_frame. by rewrite Hdec. }
  assert (files w' = files w) as Hf.
  { unfold w'. rewrite files_log.
    by destruct (warned_files t self (log t skip_download_notice w)) as [-> _]. }
  assert (dirs w' = dirs w) as Hd.
  { unfold w'. rewrite dirs_log.
    by destruct (warned_files t self (log t skip_download_notice w)) as [_ ->]. }
  split; [by apply Hrun|]. split; [done|]. split; [|by rewrite Hrun].
  unfold w', warned. destruct (ignores_county self).
  - by rewrite (events_since_app w _
                  [(t, EvRead (metadata_parquet d)); (t, EvPrint COUNTY_WARNING);
                   (t, skip_download_notice)]).
  - by rewrite (events_since_app w _
                  [(t, EvRead (metadata_parquet d)); (t, skip_download_notice)]).
Qed.

Lemma corrupt_raw_never_refetched_witness :
  let self := Toy.processor "DE" "All" "All" in
  let w := mkWorld {[ metadata_parquet Toy.data_dir := "garbage" ]}
             {[ Toy.data_dir ]} [] in
  (interp Toy.remote None (process_metadata Toy.codec self Toy.data_dir) w).1
  = Raise ArrowInvalid.
Proof.
  intros self w.
  destruct (corrupt_raw_never_refetched Toy.codec Toy.remote Toy.remote None self
              Toy.data_dir w "garbage"
              ltac:(vm_compute; reflexivity) ltac:(vm_compute; reflexivity)
              ltac:(vm_compute; reflexivity)) as [H _].
  by rewrite H.
Defined.

(** X5: a cached projection is served as it is.  When the projection file
    decodes, the call returns its frame, whatever the query's filters would
    select, and the raw metadata file is not read.  The raw file is looked
    after first all the same: when it is there nothing is requested; when it
    is missing it is requested once more, a refusal is reported and is not
    an error, and a 200 answer is saved as the raw file. *)
Theorem cached_projection_served_as_is (cd : Codec) (net : Remote) (t : Tid)
    (self : ComStockProcessor) (d : Path) (w : World) (data : string)
    (df : DataFrame) :
  files w !! output_csv self d = Some data ->
  csv_decode cd data = Some df ->
  let run := interp net t (process_metadata cd self d) w in
  let served w0 :=
    log t (EvRead (output_csv self d))
      (log t (skip_creation_notice (output_csv self d)) w0) in
  let asked := log t (EvGet (metadata_link self))
                 (log t (downloading_notice self) w) in
  (exists_ w (metadata_parquet d) = true ->
     run = (Ok df, served (log t skip_download_notice w)))
  /\ (exists_ w (metadata_parquet d) = false ->
      status_code (net (metadata_link self)) <> 200 ->
      run = (Ok df, served (log t (failure_notice (metadata_link self)) asked)))
  /\ (exists_ w (metadata_parquet d) = false ->
      status_code (net (metadata_link self)) = 200 ->
      is_dir w d = true ->
      run = (Ok df,
             served (log t (EvWrite (metadata_parquet d))
                       (set_file (metadata_parquet d)
                          (content (net (metadata_link self)))
                          (log t (EvOpen (metadata_parquet d))
                             (set_file (metadata_parquet d) "" asked))))))
  /\ (forall df', run.1 = Ok df' ->
        df' = df
        /\ files run.2 !! output_csv self d = Some data
        /\ (t, EvRead (metadata_parquet d)) ∉ events_since w run.2).
Proof.
  intros Hout Hdec run served asked.
  assert (forall w0,
            interp net t (pm_fetch self d) w = (Ok tt, w0) ->
            files w0 !! output_csv self d = Some data ->
            run = (Ok df, served w0)) as Hserve.
  { intros w0 Hfetch Hout0. unfold run.
    rewrite process_metadata_split, interp_bind, Hfetch.
    rewrite pm_project_cached by (by eapply is_file_exists, lookup_is_file).
    by rewrite Hout0, Hdec. }
  assert (exists_ w (metadata_parquet d) = false ->
          status_code (net (metadata_link self)) = 200 ->
          is_dir w d = true ->
          interp net t (pm_fetch self d) w
          = (Ok tt, log t (EvWrite (metadata_parquet d))
                      (set_file (metadata_parquet d)
                         (content (net (metadata_link self)))
                         (log t (EvOpen (metadata_parquet d))
                            (set_file (metadata_parquet d) "" asked))))) as Hok.
  { intros He Hs Hd. unfold pm_fetch. simpl. rewrite He. simpl.
    change (interp net t
              (download_file (metadata_link self) (metadata_parquet d))
              (log t (downloading_notice self) w) = (Ok tt,
              log t (EvWrite (metadata_parquet d))
                (set_file (metadata_parquet d)
                   (content (net (metadata_link self)))
                   (log t (EvOpen (metadata_parquet d))
                      (set_file (metadata_parquet d) "" asked))))).
    apply download_file_ok; [done| |].
    - rewrite is_dir_log. by destruct (exists_false _ _ He).
    - unfold metadata_parquet. by rewrite is_dir_log, parent_path_div. }
  assert (forall w0 c c',
            files (log t (EvWrite (metadata_parquet d))
                     (set_file (metadata_parquet d) c
                        (log t (EvOpen (metadata_parquet d))
                           (set_file (metadata_parquet d) c' w0))))
              !! output_csv self d
            = files w0 !! output_csv self d) as Hkeep.
  { intros w0 c c'.
    rewrite files_log, files_set_file, lookup_insert_ne
      by (intros E; by apply (parquet_csv_distinct self d)).
    by rewrite files_log, files_set_file, lookup_insert_ne
      by (intros E; by apply (parquet_csv_distinct self d)). }
  assert (EvRead (output_csv self d) <> EvRead (metadata_parquet d)) as Hne.
  { intros [= E]. by apply (parquet_csv_distinct self d). }
  split; [|split; [|split]].
  - intros He. apply Hserve; [by apply pm_fetch_cached | done].
  - intros He Hs. apply Hserve; [by apply pm_fetch_failed | done].
  - intros He Hs Hd. apply Hserve; [by apply Hok|]. by rewrite Hkeep.
  - intros df' Hrun.
    destruct (exists_ w (metadata_parquet d)) eqn:He.
    { rewrite (Hserve _ (pm_fetch_cached net t self d w He) Hout) in Hrun |- *.
      injection Hrun as <-. split; [done|]. split; [done|].
      rewrite (events_since_app w _
                 [(t, EvRead (output_csv self d));
                  (t, skip_creation_notice (output_csv self d));
                  (t, skip_download_notice)]) by done.
      rewrite !not_elem_of_cons. repeat split; try done; [congruence|].
      apply not_elem_of_nil. }
    destruct (Z.eq_dec (status_code (net (metadata_link self))) 200) as [Hs|Hs].
    2:{ rewrite (Hserve _ (pm_fetch_failed net t self d w He Hs) Hout)
          in Hrun |- *.
        injection Hrun as <-. split; [done|]. split; [done|].
        rewrite (events_since_app w _
                   [(t, EvRead (output_csv self d));
                    (t, skip_creation_notice (output_csv self d));
                    (t, failure_notice (metadata_link self));
                    (t, EvGet (metadata_link self));
                    (t, downloading_notice self)]) by done.
        rewrite !not_elem_of_cons. repeat split; try done; [congruence|].
        apply not_elem_of_nil. }
    destruct (is_dir w d) eqn:Hd.
    { assert (Hk := Hkeep asked (content (net (metadata_link self))) "").
      assert (Hr := Hserve _ (Hok eq_refl Hs eq_refl)).
      rewrite Hk in Hr. specialize (Hr Hout). rewrite Hr in Hrun |- *.
      injection Hrun as <-. split; [done|].
      split; [exact (eq_trans Hk Hout)|].
      rewrite (events_since_app w _
                 [(t, EvRead (output_csv self d));
                  (t, skip_creation_notice (output_csv self d));
                  (t, EvWrite (metadata_parquet d));
                  (t, EvOpen (metadata_parquet d));
                  (t, EvGet (metadata_link self));
                  (t, downloading_notice self)]) by done.
      rewrite !not_elem_of_cons. repeat split; try done; [congruence|].
      apply not_elem_of_nil. }
    exfalso. revert Hrun. unfold run.
    rewrite process_metadata_split, interp_bind. unfold pm_fetch, download_file.
    simpl. rewrite He. simpl. rewrite Hs. simpl.
    rewrite ?is_dir_log, ?is_file_log.
    destruct (exists_false _ _ He) as [-> _].
    unfold metadata_parquet. rewrite parent_path_div, Hd.
    by destruct (is_file w d).
Qed.

Lemma cached_projection_served_as_is_witness :
  let self := Toy.processor "DE" "All" "SmallOffice" in
  let run := interp Toy.offline None
               (process_metadata Toy.codec self Toy.data_dir)
               Toy.projection_only in
  run.1 = Ok (mkDF None ["bldg_id"; "in.state"] [(CInt 0, [CInt 101; CStr "DE"])])
  /\ events_since Toy.projection_only run.2
     = [(None, EvRead (output_csv self Toy.data_dir));
        (None, skip_creation_notice (output_csv self Toy.data_dir));
        (None, failure_notice (metadata_link self));
        (None, EvGet (metadata_link self));
        (None, downloading_notice self)].
Proof.
  intros self run.
  destruct (cached_projection_served_as_is Toy.codec Toy.offline None self
              Toy.data_dir Toy.projection_only "bldg_id|in.state;101|DE"
              (mkDF None ["bldg_id"; "in.state"] [(CInt 0, [CInt 101; CStr "DE"])])
              ltac:(vm_compute; reflexivity) ltac:(vm_compute; reflexivity))
    as (_ & H & _).
  unfold run.
  rewrite H; [|vm_compute; reflexivity|vm_compute; discriminate].
  split; [reflexivity|]. vm_compute. reflexivity.
Defined.

(** ** The projection file name as a cache key *)









(** * Further properties of the time-series path *)

(** ** A download that succeeds *)

(** X7: on a cache miss answered 200 the task makes exactly one request, to
    [{time_series_url}/by_state/upgrade={upgrade}/state={state}/{id}-{upgrade}.parquet],
    and saves the response body, as it is, under
    [bldg_id-{id}-upgrade-{upgrade}.parquet] in the destination directory.
    When the destination directory is missing the request is still made,
    nothing is saved and the task fails with FileNotFoundError. *)
Theorem download_task_saves_body (net : Remote) (t : Tid)
    (self : ComStockProcessor) (d : Path) (row : gmap string Cell) (c st : Cell)
    (w : World) :
  let url := time_series_url self +:+ "/by_state/upgrade=" +:+ upgrade self
             +:+ "/state=" +:+ str st +:+ "/" +:+ str c +:+ "-"
             +:+ upgrade self +:+ ".parquet" in
  let p := d </> ("bldg_id-" +:+ str c +:+ "-upgrade-" +:+ upgrade self
                  +:+ ".parquet") in
  row !! "bldg_id" = Some c -> row !! "in.state" = Some st ->
  exists_ w p = false -> status_code (net url) = 200 ->
  (is_dir w d = true ->
   exists w',
     interp net t (download_task self d row) w = (Ok (p, str c), w')
     /\ files w' = <[p := content (net url)]> (files w)
     /\ dirs w' = dirs w
     /\ events_since w w' = [(t, EvWrite p); (t, EvOpen p); (t, EvGet url)])
  /\ (exists_ w d = false ->
      interp net t (download_task self d row) w
      = (Raise FileNotFoundError, log t (EvGet url) w)).
Proof.
  intros url p Hc Hs He Hst.
  change p with (target self d c) in *.
  change url with (series_link self st c) in *.
  destruct (exists_false _ _ He) as [Hpd _].
  rewrite (download_task_unfold _ _ _ _ Hc). simpl. rewrite He.
  unfold getitem. rewrite Hs. simpl.
  change (time_series_file self (str st) (str c)) with (series_link self st c).
  rewrite Hst. simpl. rewrite !is_dir_log, Hpd, parent_target. split.
  - intros Hd. rewrite Hd. simpl. eexists. split; [done|]. split; [|split].
    + simpl. apply insert_insert_eq.
    + done.
    + by apply events_since_app.
  - intros Hd. destruct (exists_false _ _ Hd) as [-> Hf].
    rewrite is_file_log, Hf. done.
Qed.

Lemma download_task_saves_body_witness :
  let self := Toy.processor "DE" "All" "All" in
  let row : gmap string Cell :=
    list_to_map [("bldg_id", CInt 101); ("in.state", CStr "DE")] in
  exists w',
    interp Toy.remote (Some 0%nat) (download_task self Toy.data_dir row) Toy.disk
    = (Ok (["data"; "bldg_id-101-upgrade-0.parquet"], "101"), w')
    /\ files w' !! ["data"; "bldg_id-101-upgrade-0.parquet"] = Some "series-101".
Proof.
  intros self row.
  destruct (download_task_saves_body Toy.remote (Some 0%nat) self Toy.data_dir
              row (CInt 101) (CStr "DE") Toy.disk
              ltac:(vm_compute; reflexivity) ltac:(vm_compute; reflexivity)
              ltac:(vm_compute; reflexivity) ltac:(vm_compute; reflexivity))
    as [H _].
  destruct (H ltac:(vm_compute; reflexivity)) as (w' & Hrun & Hf & _).
  exists w'. split; [exact Hrun|]. rewrite Hf. vm_compute. reflexivity.
Defined.

(** ** What the fan-out leaves alone *)

(** Directories are as at [w]; so is every file that was there at [w] and
    every path that is no target of the row set. *)
Definition spared (self : ComStockProcessor) (d : Path) (df : DataFrame)
    (w w' : World) : Prop :=
  dirs w' = dirs w
  /\ forall q,
       exists_ w q = true
       \/ (forall row c, row ∈ data_rows df -> row !! "bldg_id" = Some c ->
             q <> target self d c) ->
       files w' !! q = files w !! q.

Lemma spared_log (self : ComStockProcessor) (d : Path) (df : DataFrame)
    (w w' : World) (t : Tid) (ev : Event) :
  spared self d df w w' -> spared self d df w (log t ev w').
Proof. done. Qed.

Lemma spared_set_file (self : ComStockProcessor) (d : Path) (df : DataFrame)
    (w w' : World) (row : gmap string Cell) (c : Cell) (data : string) :
  row ∈ data_rows df -> row !! "bldg_id" = Some c ->
  exists_ w (target self d c) = false ->
  spared self d df w w' ->
  spared self d df w (set_file (target self d c) data w').
Proof.
  intros Hrow Hc He [Hd Hf]. split; [done|]. intros q Hq.
  rewrite files_set_file, lookup_insert_ne; [by apply Hf|].
  intros <-. destruct Hq as [Hq|Hq]; [congruence|]. by apply (Hq row c).
Qed.

Lemma download_task_spares (net : Remote) (t : Tid) (self : ComStockProcessor)
    (d : Path) (df : DataFrame) (w : World) (row : gmap string Cell) :
  row ∈ data_rows df ->
  wp net (spared self d df w) t (download_task self d row) (fun _ => True).
Proof.
  intros Hrow. destruct (row !! "bldg_id") as [c|] eqn:Hc.
  2:{ by rewrite download_task_no_id. }
  rewrite (download_task_unfold _ _ _ _ Hc). simpl.
  intros w1 Hw1. split; [done|].
  destruct (exists_ w1 (target self d c)) eqn:He1; [done|].
  assert (exists_ w (target self d c) = false) as He.
  { destruct (exists_ w (target self d c)) eqn:E; [|done].
    destruct Hw1 as [Hd Hf].
    rewrite (exists_congr w w1 (target self d c)) in He1;
      [congruence | done | apply Hf; by left]. }
  unfold getitem. destruct (row !! "in.state") as [st|]; simpl; [|done].
  intros w2 Hw2. split; [by apply spared_log|].
  destruct (status_code _ =? 200); simpl.
  - intros w3 Hw3.
    destruct (is_dir w3 (target self d c)); simpl; [done|].
    destruct (is_dir w3 (parent (target self d c))); simpl.
    + split; [by eapply spared_log, spared_set_file|].
      intros w4 Hw4. split; [by eapply spared_log, spared_set_file|done].
    + by destruct (is_file w3 (parent (target self d c))).
  - intros w3 Hw3. split; [by apply spared_log|done].
Qed.

(** X8: whatever the schedule and the outcome, the fan-out creates no
    directory, changes no file that was there before the call, and touches
    no path other than the target files of its rows. *)
Theorem fan_out_touches_only_targets (net : Remote) (cpus : nat)
    (sched : list nat) (self : ComStockProcessor) (df : DataFrame) (d : Path)
    (w : World) (q : Path) :
  dirs (process_building_time_series net cpus sched self df d w).2 = dirs w
  /\ (exists_ w q = true ->
      files (process_building_time_series net cpus sched self df d w).2 !! q
      = files w !! q)
  /\ ((forall row c, row ∈ data_rows df -> row !! "bldg_id" = Some c ->
         q <> target self d c) ->
      files (process_building_time_series net cpus sched self df d w).2 !! q
      = files w !! q).
Proof.
  destruct (pbts_ok net (spared self d df w) (fun _ _ => True)
              cpus sched self df d w) as ([Hd Hf] & _).
  { destruct (pool_start_frozen cpus (length (df_rows df)) w) as [Hf Hd].
    split; [done|]. intros q' _. by rewrite Hf. }
  { intros i row Hrow. apply download_task_spares.
    by eapply list_elem_of_lookup_2. }
  split; [done|]. split; intros H; apply Hf; auto.
Qed.

Lemma fan_out_touches_only_targets_witness :
  let run := process_building_time_series Toy.remote 4 [1; 0; 1; 0]%nat
               (Toy.processor "DE" "All" "All") Toy.two_buildings Toy.data_dir
               Toy.disk_with_101 in
  files run.2 !! ["data"; "bldg_id-101-upgrade-0.parquet"] = Some "series-101"
  /\ files run.2 !! ["data"; "notes.txt"] = None.
Proof.
  intros run.
  destruct (fan_out_touches_only_targets Toy.remote 4 [1; 0; 1; 0]%nat
              (Toy.processor "DE" "All" "All") Toy.two_buildings Toy.data_dir
              Toy.disk_with_101 ["data"; "bldg_id-101-upgrade-0.parquet"])
    as (_ & H1 & _).
  destruct (fan_out_touches_only_targets Toy.remote 4 [1; 0; 1; 0]%nat
              (Toy.processor "DE" "All" "All") Toy.two_buildings Toy.data_dir
              Toy.disk_with_101 ["data"; "notes.txt"])
    as (_ & _ & H2).
  split.
  - unfold run. rewrite H1; vm_compute; reflexivity.
  - unfold run. rewrite H2; [vm_compute; reflexivity|].
    intros row c Hrow Hc. apply list_elem_of_In in Hrow. vm_compute in Hrow.
    destruct Hrow as [<-|[<-|[]]]; vm_compute in Hc; injection Hc as <-;
      vm_compute; discriminate.
Defined.

(** ** Failing calls *)

Lemma collect_first_raise {A : Type} (rs : list (Result A)) (e : Exn) :
  rs !! 0%nat = Some (Raise e) -> collect rs = Raise e.
Proof. destruct rs as [|[a|e'] rs]; simpl; congruence. Qed.

(** Without a destination directory no task can write. *)
Lemma download_task_no_dir (net : Remote) (t : Tid) (self : ComStockProcessor)
    (d : Path) (w0 : World) (row : gmap string Cell) :
  exists_ w0 d = false ->
  wp net (frozen w0) t (download_task self d row)
    (fun r => forall c st,
       row !! "bldg_id" = Some c -> row !! "in.state" = Some st ->
       exists_ w0 (target self d c) = false ->
       status_code (net (series_link self st c)) = 200 ->
       r = Raise FileNotFoundError).
Proof.
  intros Hd0. destruct (exists_false _ _ Hd0) as [Hdd Hdf].
  destruct (row !! "bldg_id") as [c|] eqn:Hc.
  2:{ rewrite download_task_no_id by done. simpl. intros c st [=]. }
  rewrite (download_task_unfold _ _ _ _ Hc). simpl.
  intros w1 Hw1. split; [done|]. rewrite (frozen_exists w0 w1) by done.
  destruct (exists_ w0 (target self d c)) eqn:He.
  { intros c' st' [= <-] _ E. congruence. }
  destruct (exists_false _ _ He) as [Hpd _].
  unfold getitem. destruct (row !! "in.state") as [st|] eqn:Hs; simpl.
  2:{ intros c' st' _ [=]. }
  intros w2 Hw2. split; [by apply frozen_log|].
  change (time_series_file self (str st) (str c)) with (series_link self st c).
  destruct (Z.eqb_spec (status_code (net (series_link self st c))) 200)
    as [E|E]; simpl.
  - intros w3 [Hf3 Hd3].
    rewrite !(is_dir_dirs w0 w3) by done. rewrite Hpd, parent_target, Hdd.
    assert (is_file w3 d = false) as ->.
    { unfold is_file. rewrite Hf3. exact Hdf. }
    simpl. split; [done|]. intros c' st' [= <-] [= <-] _ _. done.
  - intros w3 Hw3. split; [by apply frozen_log|].
    intros c' st' [= <-] [= <-] _ E'. done.
Qed.

(** X9: the fan-out does not create its destination directory.  When the
    directory is missing and the first row's download is answered 200, the
    call fails with FileNotFoundError under every schedule, whatever the
    other rows are; nothing is written and the directory is still missing. *)
Theorem missing_destination_fails (net : Remote) (cpus : nat)
    (sched : list nat) (self : ComStockProcessor) (df : DataFrame) (d : Path)
    (w : World) (row : gmap string Cell) (c st : Cell) :
  data_rows df !! 0%nat = Some row ->
  row !! "bldg_id" = Some c -> row !! "in.state" = Some st ->
  exists_ w d = false -> exists_ w (target self d c) = false ->
  status_code (net (series_link self st c)) = 200 ->
  (process_building_time_series net cpus sched self df d w).1
  = Raise FileNotFoundError
  /\ files (process_building_time_series net cpus sched self df d w).2 = files w
  /\ exists_ (process_building_time_series net cpus sched self df d w).2 d
     = false.
Proof.
  intros Hrow Hc Hs Hd He Hst.
  destruct (pbts_ok net (frozen w)
              (fun i r => forall row', data_rows df !! i = Some row' ->
                 forall c' st', row' !! "bldg_id" = Some c' ->
                   row' !! "in.state" = Some st' ->
                   exists_ w (target self d c') = false ->
                   status_code (net (series_link self st' c')) = 200 ->
                   r = Raise FileNotFoundError)
              cpus sched self df d w) as (Hfr & rs & Hlen & Hpost & Hres).
  { apply pool_start_frozen. }
  { intros i row' Hrow'. eapply wp_mono; [|by apply download_task_no_dir].
    simpl. intros r Hr row'' Hrow''. simplify_eq. exact Hr. }
  split; [|split].
  - rewrite Hres. rewrite (collect_first_raise rs FileNotFoundError); [done|].
    assert (0 < length rs)%nat as Hlt.
    { rewrite Hlen, <- length_data_rows. by eapply lookup_lt_Some. }
    destruct (lookup_lt_is_Some_2 _ _ Hlt) as [r Hr]. rewrite Hr. f_equal.
    by apply (Hpost 0%nat r Hr row Hrow c st).
  - by destruct Hfr.
  - by rewrite (frozen_exists w).
Qed.

Lemma missing_destination_fails_witness :
  (process_building_time_series Toy.remote 4 [0; 0]%nat
     (Toy.processor "DE" "All" "All") Toy.one_building ["nowhere"] Toy.disk).1
  = Raise FileNotFoundError.
Proof.
  apply (missing_destination_fails Toy.remote 4 [0; 0]%nat
           (Toy.processor "DE" "All" "All") Toy.one_building ["nowhere"] Toy.disk
           (list_to_map [("bldg_id", CInt 101); ("in.state", CStr "DE")])
           (CInt 101) (CStr "DE")); vm_compute; reflexivity.
Defined.

(** X10: a non-empty row set without a building-id column makes the call
    fail with KeyError on "bldg_id", under every schedule, before any file
    is looked at: no request is made and nothing is written. *)
Theorem missing_id_column_fails (net : Remote) (cpus : nat) (sched : list nat)
    (self : ComStockProcessor) (df : DataFrame) (d : Path) (w : World) :
  "bldg_id" ∉ df_columns df -> df_rows df <> [] ->
  process_building_time_series net cpus sched self df d w
  = (Raise (KeyError "bldg_id"), pool_start cpus (length (df_rows df)) w)
  /\ network_free
       (events_since w (pool_start cpus (length (df_rows df)) w)) = true
  /\ write_free
       (events_since w (pool_start cpus (length (df_rows df)) w)) = true.
Proof.
  intros Hcol Hne.
  destruct (pool_start_quiet cpus (length (df_rows df)) w) as [Hn Hw].
  split; [|done].
  destruct (pbts_ok net (fun w' => w' = pool_start cpus (length (df_rows df)) w)
              (fun _ r => r = Raise (KeyError "bldg_id"))
              cpus sched self df d w eq_refl) as (Hw' & rs & Hlen & Hpost & Hres).
  { intros i row Hrow. rewrite download_task_no_id; [done|].
    unfold data_rows, iterrows in Hrow. rewrite map_map in Hrow.
    apply list_elem_of_lookup_2, list_elem_of_fmap in Hrow as (r & -> & _).
    simpl. destruct (series (df_columns df) r.2 !! "bldg_id") eqn:E; [|done].
    by apply series_lookup_in in E. }
  destruct (process_building_time_series net cpus sched self df d w) as [r w'].
  simpl in *. subst w'. f_equal. rewrite Hres.
  rewrite (collect_first_raise rs (KeyError "bldg_id")); [done|].
  destruct rs as [|r0 rs]; [by destruct (df_rows df)|].
  simpl. f_equal. by apply (Hpost 0%nat).
Qed.

Lemma missing_id_column_fails_witness :
  (process_building_time_series Toy.remote 4 [0]%nat
     (Toy.processor "DE" "All" "All")
     (mkDF None ["in.state"] [(CInt 0, [CStr "DE"])]) Toy.data_dir Toy.disk).1
  = Raise (KeyError "bldg_id").
Proof.
  destruct (missing_id_column_fails Toy.remote 4 [0]%nat
              (Toy.processor "DE" "All" "All")
              (mkDF None ["in.state"] [(CInt 0, [CStr "DE"])]) Toy.data_dir
              Toy.disk) as [H _].
  - intros [[=]|[]%elem_of_nil]%elem_of_cons.
  - discriminate.
  - by rewrite H.
Defined.

(** * The driver *)

(** A store that answers every request, and the metadata request with the
    metadata. *)
Definition generous : string -> Response :=
  fun url =>
    if String.eqb url (BASE_URL +:+ "metadata/baseline.parquet")
    then mkResponse 200 Toy.metadata
    else mkResponse 200 "series".

Definition home : World := mkWorld ∅ {[ ["home"] ]} [].

(** The frame [main] hands to the fan-out. *)
Definition main_frame (cd : Codec) (net : Remote) (cwd : Path)
    : World -> Result DataFrame * World :=
  let base_dir := cwd </> "datasets" </> "comstock" in
  _ <== ensure_dirs net [base_dir; base_dir </> "timeseries"];
  processor <== interp net None (__init__ "CA" "All" "All" "0" base_dir);
  interp net None (process_metadata cd processor base_dir).

Definition main_base (cwd : Path) : Path := cwd </> "datasets" </> "comstock".
Definition main_timeseries (cwd : Path) : Path := main_base cwd </> "timeseries".
Definition main_processor (cwd : Path) : ComStockProcessor :=
  new_processor "CA" "All" "All" "0" (main_base cwd).

(** ** Directory creation *)

Lemma perform_mkdir_frame (net : Remote) (t : Tid) (p : Path) (w : World) :
  files (perform net t (OMkdir p) w).2 = files w.
Proof. simpl. split_cases; done. Qed.

Lemma perform_mkdir_ok (net : Remote) (t : Tid) (p : Path) (w w' : World) (x : unit) :
  perform net t (OMkdir p) w = (Ok x, w') -> is_dir w' p = true.
Proof.
  simpl. destruct (exists_ w p); [done|].
  destruct (is_dir w (parent p)).
  - intros [= _ <-]. rewrite is_dir_log. unfold is_dir, add_dir. simpl.
    apply orb_true_iff. right. apply bool_decide_eq_true_2.
    apply elem_of_union. left. by apply elem_of_singleton.
  - by destruct (is_file w (parent p)).
Qed.

Lemma mkdir_exist_ok_spec (net : Remote) (t : Tid) (p : Path) (w : World) :
  files (mkdir_exist_ok net t p w).2 = files w
  /\ grows w (mkdir_exist_ok net t p w).2
  /\ forall x, (mkdir_exist_ok net t p w).1 = Ok x ->
       is_dir (mkdir_exist_ok net t p w).2 p = true.
Proof.
  unfold mkdir_exist_ok.
  pose proof (perform_mkdir_frame net t p w) as Hf.
  pose proof (perform_grows net t (OMkdir p) w) as Hg.
  pose proof (perform_mkdir_ok net t p w) as Hok.
  destruct (perform net t (OMkdir p) w) as [[x|e] w'] eqn:E; simpl in *.
  { split; [done|]. split; [done|]. intros _ _. by eapply Hok. }
  destruct e; try (destruct (is_dir w' p) eqn:Hd); simpl; try done.
Qed.

Lemma mkdir_parents_rev_spec (net : Remote) (t : Tid) (rp : list string)
    (w : World) :
  files (mkdir_parents_rev net t rp w).2 = files w
  /\ grows w (mkdir_parents_rev net t rp w).2
  /\ forall x, (mkdir_parents_rev net t rp w).1 = Ok x ->
       is_dir (mkdir_parents_rev net t rp w).2 (rev rp) = true.
Proof.
  revert w. induction rp as [|a rq IH]; intros w.
  - unfold mkdir_parents_rev.
    pose proof (perform_mkdir_frame net t (rev []) w) as Hf.
    pose proof (perform_grows net t (OMkdir (rev [])) w) as Hg.
    pose proof (perform_mkdir_ok net t (rev []) w) as Hok.
    destruct (perform net t (OMkdir (rev [])) w) as [[x|e] w']; simpl in Hf, Hg.
    { split; [done|]. split; [done|]. intros _ _. by eapply Hok. }
    destruct e; try (destruct (is_dir w' (rev [])) eqn:Hd); simpl; done.
  - change (mkdir_parents_rev net t (a :: rq) w) with
      (match perform net t (OMkdir (rev (a :: rq))) w with
       | (Ok x, w') => (Ok x, w')
       | (Raise FileNotFoundError, w') =>
           match mkdir_parents_rev net t rq w' with
           | (Ok _, w'') => mkdir_exist_ok net t (rev (a :: rq)) w''
           | (Raise e, w'') => (Raise e, w'')
           end
       | (Raise e, w') =>
           if is_dir w' (rev (a :: rq)) then (Ok tt, w') else (Raise e, w')
       end).
    pose proof (perform_mkdir_frame net t (rev (a :: rq)) w) as Hf.
    pose proof (perform_grows net t (OMkdir (rev (a :: rq))) w) as Hg.
    pose proof (perform_mkdir_ok net t (rev (a :: rq)) w) as Hok.
    destruct (perform net t (OMkdir (rev (a :: rq))) w) as [[x|e] w'];
      simpl in Hf, Hg.
    { split; [done|]. split; [done|]. intros _ _. by eapply Hok. }
    destruct e;
      try (destruct (is_dir w' (rev (a :: rq))) eqn:Hd; simpl; done).
    destruct (IH w') as (Hf' & Hg' & _).
    destruct (mkdir_parents_rev net t rq w') as [[y|e'] w''];
      simpl in Hf', Hg'.
    + destruct (mkdir_exist_ok_spec net t (rev (a :: rq)) w'') as (Hf2 & Hg2 & Hok2).
      split; [by rewrite Hf2, Hf', Hf|]. split; [|done].
      eapply grows_trans; [done|]. by eapply grows_trans.
    + simpl. split; [by rewrite Hf', Hf|]. split; [|done].
      by eapply grows_trans.
Qed.

Lemma ensure_dirs_cons (net : Remote) (d : Path) (ds : list Path) (w : World) :
  ensure_dirs net (d :: ds) w
  = if exists_ w d then ensure_dirs net ds w
    else match mkdir_parents net None d w with
         | (Ok _, w') => ensure_dirs net ds w'
         | (Raise e, w') => (Raise e, w')
         end.
Proof. simpl. unfold andthen. simpl. by destruct (exists_ w d). Qed.

Lemma ensure_dirs_spec (net : Remote) (ds : list Path) (w : World) :
  files (ensure_dirs net ds w).2 = files w
  /\ grows w (ensure_dirs net ds w).2
  /\ ((ensure_dirs net ds w).1 = Ok tt ->
      forall d, d ∈ ds -> exists_ (ensure_dirs net ds w).2 d = true).
Proof.
  revert w. induction ds as [|d ds IH]; intros w.
  { split; [done|]. split; [apply grows_refl|]. by intros _ d Hd%elem_of_nil. }
  rewrite ensure_dirs_cons. destruct (exists_ w d) eqn:He.
  - destruct (IH w) as (Hf & Hg & Hok). split; [done|]. split; [done|].
    intros H d' [->|Hd']%elem_of_cons; [|by apply Hok].
    by eapply grows_exists.
  - destruct (mkdir_parents_rev_spec net None (rev d) w) as (Hf & Hg & Hok).
    unfold mkdir_parents.
    destruct (mkdir_parents_rev net None (rev d) w) as [[x|e] w'];
      simpl in Hf, Hg, Hok; [|done].
    destruct (IH w') as (Hf' & Hg' & Hok'). split; [by rewrite Hf'|].
    split; [by eapply grows_trans|].
    intros H d' [->|Hd']%elem_of_cons; [|by apply Hok'].
    eapply grows_exists; [done|]. unfold exists_.
    specialize (Hok x eq_refl). rewrite rev_involutive in Hok. by rewrite Hok.
Qed.

Lemma ensure_dirs_present (net : Remote) (ds : list Path) (w : World) :
  (forall d, d ∈ ds -> exists_ w d = true) -> ensure_dirs net ds w = (Ok tt, w).
Proof.
  induction ds as [|d ds IH]; intros H; [done|].
  rewrite ensure_dirs_cons, (H d) by apply list_elem_of_here. apply IH.
  intros d' Hd'. apply H. by apply list_elem_of_further.
Qed.
